(** * django-rest-params: the [params] decorator

    A shallow embedding of [django_rest_params/__init__.py]: the
    [ParamValidator] class with its [check_type] and [check_value] methods,
    the loop of [params] that builds the validators from the decorator's
    keyword arguments, and [wrapped_request_fn], the function that replaces
    the decorated handler.

    Python values are modelled by the inductive type [pyval]; exceptions by
    an error monad that also records the calls made, so that the order of
    the calls and the calls that are not made can be stated.

    The text of Python 2 is of two types, [str] (bytes) and [unicode] (code
    points), and the conversions between them raise on what is not ASCII;
    both types and these failures are modelled, since the code calls [str]
    and [unicode] on the values of the request.

    What the model leaves out: [int] and [long] are one type of integer; the
    values of a request are those a parsed query or body holds ([None],
    numbers, text, lists), and a record of a model store is a reference to
    it; the keys of the two dicts of a request are byte strings; the dict of
    validators is visited in the order its keys were added. *)

From Stdlib Require Import ZArith String Ascii List Bool Lia.
From Stdlib Require Import SpecFloat.
From stdpp Require Import gmap strings pretty.

Import ListNotations.
Local Open Scope string_scope.
Local Open Scope Z_scope.

(** ** Text helpers *)

Module Text.

(** [s.split(sep)] for a separator that is not empty: the leftmost
    occurrences of [sep], never overlapping.  [skip] counts the characters
    of a separator that was found and is still being passed over. *)
Fixpoint split_go (sep : string) (skip : nat) (s : string) : list string :=
  match s with
  | EmptyString => [EmptyString]
  | String c s' =>
      match skip with
      | S k => split_go sep k s'
      | O =>
          if String.prefix sep s
          then EmptyString :: split_go sep (Nat.pred (String.length sep)) s'
          else match split_go sep 0 s' with
               | h :: t => String c h :: t
               | [] => [String c EmptyString]
               end
      end
  end.

Definition split (sep s : string) : list string := split_go sep 0 s.

(** The characters [str.isspace] accepts in the ASCII range. *)
Definition isspace (c : ascii) : bool :=
  let n := nat_of_ascii c in
  (Nat.eqb n 32 || (Nat.leb 9 n && Nat.leb n 13))%bool.

Fixpoint lstrip (s : string) : string :=
  match s with
  | String c s' => if isspace c then lstrip s' else s
  | EmptyString => EmptyString
  end.

Definition strip (s : string) : string :=
  String.rev (lstrip (String.rev (lstrip s))).

Definition isdigit (c : ascii) : bool :=
  let n := nat_of_ascii c in (Nat.leb 48 n && Nat.leb n 57)%bool.

(** The value of a run of decimal digits, [None] when a character is not a
    digit; [acc] is the value read so far. *)
Fixpoint digits (acc : Z) (s : string) : option Z :=
  match s with
  | EmptyString => Some acc
  | String c s' =>
      if isdigit c
      then digits (10 * acc + (Z.of_nat (nat_of_ascii c) - 48)) s'
      else None
  end.

(** A decimal integer literal as [int()] reads it: blanks around it, an
    optional sign, at least one digit. *)
Definition int_literal (s : string) : option Z :=
  match strip s with
  | EmptyString => None
  | String "-" (String c r) => Z.opp <$> digits 0 (String c r)
  | String "+" (String c r) => digits 0 (String c r)
  | t => digits 0 t
  end.

(** [c in s] for a character. *)
Fixpoint mem_char (c : ascii) (s : string) : bool :=
  match s with
  | EmptyString => false
  | String d s' => Ascii.eqb c d || mem_char c s'
  end.

(** A digit in base sixteen and a number in [width] such digits, as [%0wx]
    prints it when it fits. *)
Definition hex_digit (n : N) : ascii :=
  match String.get (N.to_nat n) "0123456789abcdef" with
  | Some c => c
  | None => "0"%char
  end.

Fixpoint hex (width : nat) (n : N) : string :=
  match width with
  | O => EmptyString
  | S w => hex w (n / 16) ++ String (hex_digit (n mod 16)) EmptyString
  end.

(** [sep.join(pieces)]. *)
Fixpoint join (sep : string) (pieces : list string) : string :=
  match pieces with
  | [] => EmptyString
  | [p] => p
  | p :: rest => p ++ sep ++ join sep rest
  end.

End Text.

Definition dquote : string := String (ascii_of_nat 34) EmptyString.
Definition squote : string := String (ascii_of_nat 39) EmptyString.

(** ** Python values *)

(** A [float] is an IEEE 754 binary64 number, in the representation of the
    standard library's [SpecFloat]. *)
Definition float : Type := spec_float.

Definition prec : Z := 53.
Definition emax : Z := 1024.

(** The numbers of Python: [bool] is a subclass of [int], and both compare
    with [float] by their exact values. *)
Inductive number : Type :=
| NBool (b : bool)
| NInt (z : Z)
| NFloat (f : float).

(** The values a request carries and a handler receives: [None], numbers,
    text of type [str] (its bytes) and of type [unicode] (its code points),
    lists, and references to the records of a model store (the class name
    and the identity of the record). *)
#[warnings="-register-all"] Inductive pyval : Type :=
| VNone
| VNum (n : number)
| VStr (s : string)
| VUnicode (u : list N)
| VList (l : list pyval)
| VObj (cls : string) (ref : Z).

(** The code points of a byte string read as ASCII or Latin-1, and back. *)
Definition codes (s : string) : list N := map N_of_ascii (list_ascii_of_string s).

Definition bytes_of_codes (u : list N) : string :=
  string_of_list_ascii (map ascii_of_N u).

Definition is_ascii_byte (c : ascii) : bool := (N_of_ascii c <? 128)%N.
Definition is_ascii_code (n : N) : bool := (n <? 128)%N.

(** The default codec of Python 2, ASCII: [s.decode()] and [u.encode()], or
    [None] where they raise. *)
Definition ascii_decode (s : string) : option (list N) :=
  if forallb is_ascii_byte (list_ascii_of_string s) then Some (codes s) else None.

Definition ascii_encode (u : list N) : option string :=
  if forallb is_ascii_code u then Some (bytes_of_codes u) else None.

Abbreviation VBool b := (VNum (NBool b)).
Abbreviation VInt z := (VNum (NInt z)).
Abbreviation VFloat f := (VNum (NFloat f)).

(** The exact value of a number: not a number, an infinity, or [m * 2^e]. *)
Inductive exact : Type :=
| ENaN
| EInf (negative : bool)
| EFin (m e : Z).

Definition exact_of_float (f : float) : exact :=
  match f with
  | S754_zero _ => EFin 0 0
  | S754_infinity s => EInf s
  | S754_nan => ENaN
  | S754_finite s m e => EFin (cond_Zopp s (Zpos m)) e
  end.

Definition exact_of_number (n : number) : exact :=
  match n with
  | NBool b => EFin (Z.b2z b) 0
  | NInt z => EFin z 0
  | NFloat f => exact_of_float f
  end.

(** The order of two exact values, [None] when one of them is not a number. *)
Definition exact_compare (a b : exact) : option comparison :=
  match a, b with
  | ENaN, _ | _, ENaN => None
  | EInf true, EInf true | EInf false, EInf false => Some Eq
  | EInf true, _ | _, EInf false => Some Lt
  | EInf false, _ | _, EInf true => Some Gt
  | EFin m1 e1, EFin m2 e2 =>
      let e := Z.min e1 e2 in
      Some (Z.compare (m1 * 2 ^ (e1 - e)) (m2 * 2 ^ (e2 - e)))
  end.

Definition num_compare (a b : number) : option comparison :=
  exact_compare (exact_of_number a) (exact_of_number b).

(** The comparison operators on numbers; with a NaN only [!=] is true. *)
Definition num_eq (a b : number) : bool :=
  match num_compare a b with Some Eq => true | _ => false end.
Definition num_ne (a b : number) : bool := negb (num_eq a b).
Definition num_lt (a b : number) : bool :=
  match num_compare a b with Some Lt => true | _ => false end.
Definition num_le (a b : number) : bool :=
  match num_compare a b with Some Lt | Some Eq => true | _ => false end.
Definition num_gt (a b : number) : bool :=
  match num_compare a b with Some Gt => true | _ => false end.
Definition num_ge (a b : number) : bool :=
  match num_compare a b with Some Gt | Some Eq => true | _ => false end.

(** Truth value of a number: zero is false, everything else (NaN too) true. *)
Definition num_truthy (n : number) : bool :=
  match n with
  | NBool b => b
  | NInt z => negb (z =? 0)
  | NFloat (S754_zero _) => false
  | NFloat _ => true
  end.

(** [bool(v)], the test of [if v:] and [not v]. *)
Definition py_truthy (v : pyval) : bool :=
  match v with
  | VNone => false
  | VNum n => num_truthy n
  | VStr s => negb (String.eqb s "")
  | VUnicode u => match u with [] => false | _ => true end
  | VList l => match l with [] => false | _ => true end
  | VObj _ _ => true
  end.

(** [s == u] for a [str] and a [unicode]: the bytes are decoded, and bytes
    that cannot be are equal to nothing. *)
Definition bytes_eq_unicode (s : string) (u : list N) : bool :=
  match ascii_decode s with
  | Some w => bool_decide (w = u)
  | None => false
  end.

(** [a == b]. *)
Fixpoint py_eq (a b : pyval) {struct a} : bool :=
  match a, b with
  | VNone, VNone => true
  | VNum x, VNum y => num_eq x y
  | VStr s, VStr t => String.eqb s t
  | VUnicode u, VUnicode w => bool_decide (u = w)
  | VStr s, VUnicode u | VUnicode u, VStr s => bytes_eq_unicode s u
  | VList l, VList k =>
      (fix all2 (l : list pyval) (k : list pyval) {struct l} : bool :=
         match l, k with
         | [], [] => true
         | x :: l', y :: k' => py_eq x y && all2 l' k'
         | _, _ => false
         end) l k
  | VObj c r, VObj d q => String.eqb c d && (r =? q)
  | _, _ => false
  end.

(** [type(v).__name__]. *)
Definition type_name (v : pyval) : string :=
  match v with
  | VNone => "NoneType"
  | VBool _ => "bool"
  | VInt _ => "int"
  | VFloat _ => "float"
  | VStr _ => "str"
  | VUnicode _ => "unicode"
  | VList _ => "list"
  | VObj cls _ => cls
  end.

(** Hashable values: what a [set] can be asked about. *)
Definition hashable (v : pyval) : bool :=
  match v with VList _ => false | _ => true end.

(** [float(z)] for an integer: the nearest binary64 number, ties to even. *)
Definition float_of_Z (z : Z) : float := binary_normalize prec emax z 0 false.

(** [int(f)] for a finite float: the integer part, rounded towards zero. *)
Definition trunc_exact (m e : Z) : Z :=
  if 0 <=? e then m * 2 ^ e else Z.quot m (2 ^ (- e)).

(** ** Exceptions and the record of calls *)

(** A text of either type: what a message is, and what [%] gives. *)
Inductive text : Type :=
| Bytes (s : string)
| Unicode (u : list N).

Coercion Bytes : string >-> text.

(** An exception: its class and its message, the text [str(e)] converts. *)
Record exn : Type := Raise { exn_class : string; exn_str : text }.

(** A computation returns a value or raises an exception. *)
Definition result (A : Type) : Type := (A + exn)%type.

Definition Ok {A : Type} (a : A) : result A := inl a.
Definition Throw {A : Type} (cls : string) (msg : text) : result A := inr (Raise cls msg).

Definition rbind {A B : Type} (m : result A) (f : A -> result B) : result B :=
  match m with
  | inl a => f a
  | inr e => inr e
  end.

Notation "'do' x <- m ; k" := (rbind m (fun x => k))
  (at level 10, x name, m at level 100, k at level 200).

(** [[f(x) for x in xs]]: the calls are made from left to right and the
    first exception ends the comprehension. *)
Fixpoint map_result {A B : Type} (f : A -> result B) (xs : list A) : result (list B) :=
  match xs with
  | [] => Ok []
  | x :: xs' =>
      do y <- f x;
      do ys <- map_result f xs';
      Ok (y :: ys)
  end.

(** *** The two types of text *)

(** The first element that [ok] refuses, its position counted from [i], and
    the elements after it. *)
Fixpoint first_bad {A : Type} (ok : A -> bool) (l : list A) (i : nat)
  : option (nat * A * list A) :=
  match l with
  | [] => None
  | x :: rest => if ok x then first_bad ok rest (S i) else Some (i, x, rest)
  end.

(** The number of elements at the head of [l] that [ok] refuses. *)
Fixpoint refused_run {A : Type} (ok : A -> bool) (l : list A) : nat :=
  match l with
  | x :: rest => if ok x then O else S (refused_run ok rest)
  | [] => O
  end.

(** A code point as [repr] escapes it. *)
Definition code_escape (c : N) : string :=
  if (c <? 256)%N then "\x" ++ Text.hex 2 c
  else if (c <? 65536)%N then "\u" ++ Text.hex 4 c
  else "\U" ++ Text.hex 8 c.

(** [str(e)] of a [UnicodeDecodeError] of the ASCII codec: the first byte
    that is not ASCII. *)
Definition decode_error (s : string) : string :=
  match first_bad is_ascii_byte (list_ascii_of_string s) 0 with
  | Some (i, c, _) =>
      squote ++ "ascii" ++ squote ++ " codec can't decode byte 0x"
        ++ Text.hex 2 (N_of_ascii c) ++ " in position " ++ pretty i
        ++ ": ordinal not in range(128)"
  | None => EmptyString
  end.

(** [str(e)] of a [UnicodeEncodeError]: the first run of code points the
    codec refuses. *)
Definition encode_error (codec reason : string) (ok : N -> bool) (u : list N) : string :=
  match first_bad ok u 0 with
  | Some (i, c, rest) =>
      match refused_run ok rest with
      | O => squote ++ codec ++ squote ++ " codec can't encode character u" ++ squote
               ++ code_escape c ++ squote ++ " in position " ++ pretty i ++ ": " ++ reason
      | S n => squote ++ codec ++ squote ++ " codec can't encode characters in position "
                 ++ pretty i ++ "-" ++ pretty (i + S n)%nat ++ ": " ++ reason
      end
  | None => EmptyString
  end.

(** [s.decode()], what Python 2 does to a [str] wherever a [unicode] is
    needed, and [u.encode()], what it does to a [unicode] wherever a [str]
    is. *)
Definition decode_ascii (s : string) : result (list N) :=
  match ascii_decode s with
  | Some u => Ok u
  | None => Throw "UnicodeDecodeError" (decode_error s)
  end.

Definition encode_ascii (u : list N) : result string :=
  match ascii_encode u with
  | Some s => Ok s
  | None => Throw "UnicodeEncodeError"
              (encode_error "ascii" "ordinal not in range(128)" is_ascii_code u)
  end.

(** [str(t)] and [unicode(t)] of a text. *)
Definition str_of_text (t : text) : result string :=
  match t with
  | Bytes s => Ok s
  | Unicode u => encode_ascii u
  end.

Definition unicode_of_text (t : text) : result (list N) :=
  match t with
  | Bytes s => decode_ascii s
  | Unicode u => Ok u
  end.

(** [str(e)] of an exception raised with one message. *)
Definition str_exn (e : exn) : result string := str_of_text (exn_str e).

(** The pieces joined when all of them are of type [str]. *)
Fixpoint all_bytes (pieces : list text) : option string :=
  match pieces with
  | [] => Some EmptyString
  | Bytes s :: rest => (fun r => s ++ r) <$> all_bytes rest
  | Unicode _ :: _ => None
  end.

(** [fmt % args] for a format of type [str] whose directives are all [%s],
    given as its pieces in order: the stretches of the format and what each
    argument prints as.  The result is a [str] when every piece is; with a
    [unicode] argument it is a [unicode], and every other piece is
    decoded. *)
Definition format (pieces : list text) : result text :=
  match all_bytes pieces with
  | Some s => Ok (Bytes s)
  | None =>
      do us <- map_result unicode_of_text pieces;
      Ok (Unicode (concat us))
  end.

(** [raise cls(fmt % args)]: the exception of the formatting, if it fails,
    is the one raised. *)
Definition raise_format {A : Type} (cls : string) (pieces : list text) : result A :=
  match format pieces with
  | inl msg => inr (Raise cls msg)
  | inr e => inr e
  end.

(** The ['decimal'] codec, by which [int] and [float] read a [unicode]: the
    byte it gives for a code point (a blank for a space, the ASCII digit for
    a decimal digit of any script), or [None] for a code point it refuses.
    The table is the interpreter's and is left open. *)
Class DecimalCodec : Type := decimal_byte : N -> option ascii.

Definition decimal_ok `{DecimalCodec} (c : N) : bool :=
  match decimal_byte c with Some _ => true | None => false end.

Definition encode_decimal `{DecimalCodec} (u : list N) : result string :=
  match mapM decimal_byte u with
  | Some cs => Ok (string_of_list_ascii cs)
  | None => Throw "UnicodeEncodeError"
              (encode_error "decimal" "invalid decimal Unicode string" decimal_ok u)
  end.

(** What [wrapped_request_fn] does that the properties speak of: reaching a
    validator in its loop, calling one of the validator's two methods on a
    value, calling the handler. *)
Inductive event : Type :=
| EvParam (arg_name : string)
| EvCheckType (arg_name : string) (p : pyval)
| EvCheckValue (arg_name : string) (p : pyval)
| EvHandler.

(** A computation of [wrapped_request_fn]: the events so far, in order, and
    the value returned or the exception raised. *)
Definition traced (A : Type) : Type := (list event * result A)%type.

Definition tret {A : Type} (a : A) : traced A := ([], Ok a).
Definition tell (e : event) : traced unit := ([e], Ok tt).
Definition lift {A : Type} (m : result A) : traced A := ([], m).

Definition tbind {A B : Type} (m : traced A) (f : A -> traced B) : traced B :=
  match m with
  | (log, inl a) => let '(log', r) := f a in ((log ++ log')%list, r)
  | (log, inr e) => (log, inr e)
  end.

(** [try: m] with [except Exception as e]: the exception becomes a value
    for the handler to look at. *)
Definition attempt {A : Type} (m : traced A) : traced (A + exn) :=
  match m with
  | (log, r) => (log, Ok r)
  end.

Notation "'run' x <- m ; k" := (tbind m (fun x => k))
  (at level 10, x name, m at level 100, k at level 200).
Notation "'exec' m ; k" := (tbind m (fun _ => k))
  (at level 10, m at level 100, k at level 200).

Fixpoint map_traced {A B : Type} (f : A -> traced B) (xs : list A) : traced (list B) :=
  match xs with
  | [] => tret []
  | x :: xs' =>
      run y <- f x;
      run ys <- map_traced f xs';
      tret (y :: ys)
  end.

(** ** Declarations: the values given to the decorator *)

(** The classes a declaration can name. *)
Inductive pytype : Type :=
| TInt
| TFloat
| TStr
| TBool
| TClass (name : string).

Definition pytype_eqb (a b : pytype) : bool :=
  match a, b with
  | TInt, TInt | TFloat, TFloat | TStr, TStr | TBool, TBool => true
  | TClass n, TClass m => String.eqb n m
  | _, _ => false
  end.

(** The collections of [TUPLE_TYPES] other than [list], which [pyval] has. *)
Inductive coll : Type :=
| CTuple
| CSet
| CFrozenset.

(** A Django model class, seen through the two operations [check_type] uses:
    [objects.get] with one keyword (the field and the value sought), and the
    same on [objects.only('id')] when the flag is set.  The store answers
    with a record or raises. *)
Record model : Type := Model {
  model_name : string;
  objects_get : bool -> text -> pyval -> result pyval
}.

(** Any object of the program: a class, a model class (the objects with a
    [_default_manager] attribute), a tuple, set or frozenset, or a value. *)
Inductive pyobj : Type :=
| OType (t : pytype)
| OModel (m : model)
| OColl (c : coll) (items : list pyval)
| OVal (v : pyval).

(** [hasattr(v, '_default_manager')]. *)
Definition has_default_manager (v : pyobj) : bool :=
  match v with OModel _ => true | _ => false end.

(** [isinstance(v, TUPLE_TYPES)], with the elements in iteration order. *)
Definition as_tuple_type (v : pyobj) : option (list pyval) :=
  match v with
  | OColl _ items => Some items
  | OVal (VList items) => Some items
  | _ => None
  end.

Definition isinstance_TUPLE_TYPES (v : pyobj) : bool :=
  match as_tuple_type v with Some _ => true | None => false end.

(** [v in VALID_TYPES], where [VALID_TYPES = int, float, str]. *)
Definition in_VALID_TYPES (v : pyobj) : bool :=
  match v with
  | OType t => pytype_eqb t TInt || pytype_eqb t TFloat || pytype_eqb t TStr
  | _ => false
  end.

(** [v == T] for a class [T]. *)
Definition is_type (v : pyobj) (t : pytype) : bool :=
  match v with OType u => pytype_eqb u t | _ => false end.

(** [v == x] for an object and a value. *)
Definition obj_eq (v : pyobj) (x : pyval) : bool :=
  match v with
  | OVal m => py_eq m x
  | _ => false
  end.

(** A text as a value, and [a == b] for two texts. *)
Definition VText (t : text) : pyval :=
  match t with
  | Bytes s => VStr s
  | Unicode u => VUnicode u
  end.

Definition text_eqb (a b : text) : bool := py_eq (VText a) (VText b).

(** [hash(v)]: [None] when [v] has a hash, else the type the [TypeError]
    names.  A set has none; a list has none; a tuple is hashed through its
    elements, and the error names the element that has none. *)
Definition unhashable (v : pyobj) : option string :=
  match v with
  | OColl CSet _ => Some "set"
  | OColl CTuple items => if forallb hashable items then None else Some "list"
  | OVal (VList _) => Some "list"
  | _ => None
  end.

Definition obj_type_name (v : pyobj) : string :=
  match v with
  | OType _ | OModel _ => "type"
  | OColl CTuple _ => "tuple"
  | OColl CSet _ => "set"
  | OColl CFrozenset _ => "frozenset"
  | OVal v => type_name v
  end.

Definition class_name (t : pytype) : string :=
  match t with
  | TInt => "int"
  | TFloat => "float"
  | TStr => "str"
  | TBool => "bool"
  | TClass n => n
  end.

(** The message of the [AttributeError] for a missing attribute. *)
Definition no_attribute (v : pyobj) (attr : string) : string :=
  match v with
  | OType t => "type object " ++ squote ++ class_name t ++ squote
  | OModel m => "type object " ++ squote ++ model_name m ++ squote
  | _ => squote ++ obj_type_name v ++ squote ++ " object"
  end ++ " has no attribute " ++ squote ++ attr ++ squote.

(** ** The validator class *)

(** [ParamValidator], with the class attributes as the fields' first values
    (see [ParamValidator_init]).  The five bounds are [None] or a number:
    the loop of [params] asserts it before it sets one. *)
Record ParamValidator : Type := {
  param_name : pyobj;
  param_type : pyobj;
  allow_GET : bool;
  allow_POST : bool;
  gt : option number;
  gte : option number;
  lt : option number;
  lte : option number;
  eq : option number;
  optional : bool;
  default : pyobj;
  many : bool;
  deferred : bool;
  field : pyobj
}.

(** [ParamValidator(arg_name)]. *)
Definition ParamValidator_init (arg_name : string) : ParamValidator :=
  {| param_name := OVal (VStr arg_name);
     param_type := OVal VNone;
     allow_GET := false;
     allow_POST := false;
     gt := None; gte := None; lt := None; lte := None; eq := None;
     optional := false;
     default := OVal VNone;
     many := false;
     deferred := true;
     field := OVal (VStr "id") |}.

(** [obj.attribute = x], one function for each attribute. *)
Definition set_param_name (x : pyobj) (obj : ParamValidator) : ParamValidator :=
  {| param_name := x; param_type := param_type obj;
     allow_GET := allow_GET obj; allow_POST := allow_POST obj; gt := gt obj;
     gte := gte obj; lt := lt obj; lte := lte obj; eq := eq obj;
     optional := optional obj; default := default obj; many := many obj;
     deferred := deferred obj; field := field obj |}.

Definition set_param_type (x : pyobj) (obj : ParamValidator) : ParamValidator :=
  {| param_name := param_name obj; param_type := x;
     allow_GET := allow_GET obj; allow_POST := allow_POST obj; gt := gt obj;
     gte := gte obj; lt := lt obj; lte := lte obj; eq := eq obj;
     optional := optional obj; default := default obj; many := many obj;
     deferred := deferred obj; field := field obj |}.

Definition set_allow_GET (x : bool) (obj : ParamValidator) : ParamValidator :=
  {| param_name := param_name obj; param_type := param_type obj;
     allow_GET := x; allow_POST := allow_POST obj; gt := gt obj;
     gte := gte obj; lt := lt obj; lte := lte obj; eq := eq obj;
     optional := optional obj; default := default obj; many := many obj;
     deferred := deferred obj; field := field obj |}.

Definition set_allow_POST (x : bool) (obj : ParamValidator) : ParamValidator :=
  {| param_name := param_name obj; param_type := param_type obj;
     allow_GET := allow_GET obj; allow_POST := x; gt := gt obj;
     gte := gte obj; lt := lt obj; lte := lte obj; eq := eq obj;
     optional := optional obj; default := default obj; many := many obj;
     deferred := deferred obj; field := field obj |}.

Definition set_gt (x : option number) (obj : ParamValidator) : ParamValidator :=
  {| param_name := param_name obj; param_type := param_type obj;
     allow_GET := allow_GET obj; allow_POST := allow_POST obj; gt := x;
     gte := gte obj; lt := lt obj; lte := lte obj; eq := eq obj;
     optional := optional obj; default := default obj; many := many obj;
     deferred := deferred obj; field := field obj |}.

Definition set_gte (x : option number) (obj : ParamValidator) : ParamValidator :=
  {| param_name := param_name obj; param_type := param_type obj;
     allow_GET := allow_GET obj; allow_POST := allow_POST obj; gt := gt obj;
     gte := x; lt := lt obj; lte := lte obj; eq := eq obj;
     optional := optional obj; default := default obj; many := many obj;
     deferred := deferred obj; field := field obj |}.

Definition set_lt (x : option number) (obj : ParamValidator) : ParamValidator :=
  {| param_name := param_name obj; param_type := param_type obj;
     allow_GET := allow_GET obj; allow_POST := allow_POST obj; gt := gt obj;
     gte := gte obj; lt := x; lte := lte obj; eq := eq obj;
     optional := optional obj; default := default obj; many := many obj;
     deferred := deferred obj; field := field obj |}.

Definition set_lte (x : option number) (obj : ParamValidator) : ParamValidator :=
  {| param_name := param_name obj; param_type := param_type obj;
     allow_GET := allow_GET obj; allow_POST := allow_POST obj; gt := gt obj;
     gte := gte obj; lt := lt obj; lte := x; eq := eq obj;
     optional := optional obj; default := default obj; many := many obj;
     deferred := deferred obj; field := field obj |}.

Definition set_eq (x : option number) (obj : ParamValidator) : ParamValidator :=
  {| param_name := param_name obj; param_type := param_type obj;
     allow_GET := allow_GET obj; allow_POST := allow_POST obj; gt := gt obj;
     gte := gte obj; lt := lt obj; lte := lte obj; eq := x;
     optional := optional obj; default := default obj; many := many obj;
     deferred := deferred obj; field := field obj |}.

Definition set_optional (x : bool) (obj : ParamValidator) : ParamValidator :=
  {| param_name := param_name obj; param_type := param_type obj;
     allow_GET := allow_GET obj; allow_POST := allow_POST obj; gt := gt obj;
     gte := gte obj; lt := lt obj; lte := lte obj; eq := eq obj;
     optional := x; default := default obj; many := many obj;
     deferred := deferred obj; field := field obj |}.

Definition set_default (x : pyobj) (obj : ParamValidator) : ParamValidator :=
  {| param_name := param_name obj; param_type := param_type obj;
     allow_GET := allow_GET obj; allow_POST := allow_POST obj; gt := gt obj;
     gte := gte obj; lt := lt obj; lte := lte obj; eq := eq obj;
     optional := optional obj; default := x; many := many obj;
     deferred := deferred obj; field := field obj |}.

Definition set_many (x : bool) (obj : ParamValidator) : ParamValidator :=
  {| param_name := param_name obj; param_type := param_type obj;
     allow_GET := allow_GET obj; allow_POST := allow_POST obj; gt := gt obj;
     gte := gte obj; lt := lt obj; lte := lte obj; eq := eq obj;
     optional := optional obj; default := default obj; many := x;
     deferred := deferred obj; field := field obj |}.

Definition set_deferred (x : bool) (obj : ParamValidator) : ParamValidator :=
  {| param_name := param_name obj; param_type := param_type obj;
     allow_GET := allow_GET obj; allow_POST := allow_POST obj; gt := gt obj;
     gte := gte obj; lt := lt obj; lte := lte obj; eq := eq obj;
     optional := optional obj; default := default obj; many := many obj;
     deferred := x; field := field obj |}.

Definition set_field (x : pyobj) (obj : ParamValidator) : ParamValidator :=
  {| param_name := param_name obj; param_type := param_type obj;
     allow_GET := allow_GET obj; allow_POST := allow_POST obj; gt := gt obj;
     gte := gte obj; lt := lt obj; lte := lte obj; eq := eq obj;
     optional := optional obj; default := default obj; many := many obj;
     deferred := deferred obj; field := x |}.

(** The truth value of a bound: [None] and zero are false. *)
Definition bound_truthy (b : option number) : bool :=
  match b with
  | None => false
  | Some n => num_truthy n
  end.

(** The order of a value and a number as Python 2 decides it: numbers by
    their values, [None] below every number, every other object above. *)
Definition compare_with_number (v : pyval) (n : number) : option comparison :=
  match v with
  | VNum x => num_compare x n
  | VNone => Some Lt
  | _ => Some Gt
  end.

Definition val_ne (v : pyval) (n : number) : bool :=
  match compare_with_number v n with Some Eq => false | _ => true end.
Definition val_ge (v : pyval) (n : number) : bool :=
  match compare_with_number v n with Some Gt | Some Eq => true | _ => false end.
Definition val_gt (v : pyval) (n : number) : bool :=
  match compare_with_number v n with Some Gt => true | _ => false end.
Definition val_le (v : pyval) (n : number) : bool :=
  match compare_with_number v n with Some Lt | Some Eq => true | _ => false end.
Definition val_lt (v : pyval) (n : number) : bool :=
  match compare_with_number v n with Some Lt => true | _ => false end.

(** [self.b and val OP self.b]: the test that guards each [raise] of
    [check_value]. *)
Definition bound_and (b : option number) (op : pyval -> number -> bool) (val : pyval) : bool :=
  match b with
  | Some n => num_truthy n && op val n
  | None => false
  end.

(** ** Requests and responses *)

(** What [wrapped_request_fn] reads of a request: the method, the query
    parameters, the parsed body. *)
Record Request : Type := {
  REQUEST_METHOD : string;
  GET : gmap string pyval;
  DATA : gmap string pyval
}.

(** A positional argument of the decorated function. *)
Inductive pyarg : Type :=
| IsRequest (request : Request)
| NotRequest (o : pyobj).

Definition HTTP_400_BAD_REQUEST : Z := 400.

(** How the [try] block of the loop ends when nothing is raised: in
    [continue], with the keyword arguments as they are then, or by falling
    out of the block with the checked value. *)
Inductive tried : Type :=
| Continued (kwargs : gmap string pyobj)
| Checked (value : pyval).

(** How one turn of the loop ends: the next turn follows, or the function
    returns [Response({'error': error}, status=status)]. *)
Inductive step : Type :=
| Next (kwargs : gmap string pyobj)
| Return (error : text) (status : Z).

(** What the decorated function returns: the error response, or what the
    handler returned. *)
Inductive answer (R : Type) : Type :=
| Response (error : text) (status : Z)
| Returned (r : R).

Arguments Response {R} error status.
Arguments Returned {R} r.

Section Interpreter.

(** Three conversions of the interpreter are left open: the table of the
    ['decimal'] codec, reading a float from text, and [repr], which [str]
    and the messages of the built-in exceptions use for floats, containers,
    classes and quoted text. *)
Context {decimal : DecimalCodec}.
Variable float_of_text : string -> option float.
Variable py_repr : pyobj -> string.

(** [str(n)] of a number. *)
Definition num_str (n : number) : string :=
  match n with
  | NInt z => pretty z
  | NBool true => "True"
  | NBool false => "False"
  | NFloat _ => py_repr (OVal (VNum n))
  end.

(** What [%s] prints for [v]: a text as it is, in its own type, and any
    other object as the [str] that [str(v)] gives. *)
Definition py_text (v : pyobj) : text :=
  match v with
  | OVal (VStr s) => Bytes s
  | OVal (VUnicode u) => Unicode u
  | OVal (VNum n) => Bytes (num_str n)
  | OVal VNone => Bytes "None"
  | _ => Bytes (py_repr v)
  end.

(** [str(v)]: a [unicode] is encoded, and that raises when it is not
    ASCII. *)
Definition py_str (v : pyobj) : result string := str_of_text (py_text v).

(** [unicode(v)]: a [str] is decoded, and that raises when it is not
    ASCII. *)
Definition py_unicode (v : pyobj) : result pyval :=
  do u <- unicode_of_text (py_text v);
  Ok (VUnicode u).

Definition bound_str (b : option number) : string :=
  match b with
  | Some n => num_str n
  | None => "None"
  end.

(** [int(s)] for a [str]. *)
Definition int_of_bytes (s : string) : result pyval :=
  match Text.int_literal s with
  | Some z => Ok (VInt z)
  | None => Throw "ValueError"
              ("invalid literal for int() with base 10: " ++ py_repr (OVal (VStr s)))
  end.

(** [int(v)]; a [unicode] goes through the ['decimal'] codec first. *)
Definition py_int (v : pyval) : result pyval :=
  match v with
  | VBool b => Ok (VInt (Z.b2z b))
  | VInt z => Ok (VInt z)
  | VFloat f =>
      match exact_of_float f with
      | ENaN => Throw "ValueError" "cannot convert float NaN to integer"
      | EInf _ => Throw "OverflowError" "cannot convert float infinity to integer"
      | EFin m e => Ok (VInt (trunc_exact m e))
      end
  | VStr s => int_of_bytes s
  | VUnicode u =>
      do s <- encode_decimal u;
      int_of_bytes s
  | _ => Throw "TypeError"
           ("int() argument must be a string or a number, not "
              ++ squote ++ type_name v ++ squote)
  end.

(** [float(s)] for a [str]. *)
Definition float_of_bytes (s : string) : result pyval :=
  match float_of_text s with
  | Some f => Ok (VFloat f)
  | None => Throw "ValueError" ("could not convert string to float: " ++ s)
  end.

(** [float(v)]; a [unicode] goes through the ['decimal'] codec first. *)
Definition py_float (v : pyval) : result pyval :=
  match v with
  | VFloat f => Ok (VFloat f)
  | VBool b => Ok (VFloat (float_of_Z (Z.b2z b)))
  | VInt z =>
      match float_of_Z z with
      | S754_infinity _ => Throw "OverflowError" "long int too large to convert to float"
      | f => Ok (VFloat f)
      end
  | VStr s => float_of_bytes s
  | VUnicode u =>
      do s <- encode_decimal u;
      float_of_bytes s
  | _ => Throw "TypeError" "float() argument must be a string or a number"
  end.

(** [len(v)]: the bytes of a [str], the code points of a [unicode]. *)
Definition py_len (v : pyval) : result pyval :=
  match v with
  | VStr s => Ok (VInt (Z.of_nat (String.length s)))
  | VUnicode u => Ok (VInt (Z.of_nat (List.length u)))
  | VList l => Ok (VInt (Z.of_nat (List.length l)))
  | _ => Throw "TypeError"
           ("object of type " ++ squote ++ type_name v ++ squote ++ " has no len()")
  end.

(** [isinstance(v, (str, unicode))]. *)
Definition is_text (v : pyval) : bool :=
  match v with VStr _ | VUnicode _ => true | _ => false end.

(** [param in collection]: a set hashes [param] first. *)
Definition py_in (param : pyval) (collection : pyobj) (items : list pyval) : result bool :=
  match collection with
  | OColl CSet _ | OColl CFrozenset _ =>
      if hashable param then Ok (existsb (py_eq param) items)
      else Throw "TypeError" ("unhashable type: " ++ squote ++ type_name param ++ squote)
  | _ => Ok (existsb (py_eq param) items)
  end.

(** [ParamValidator.check_type]. *)
Definition check_type (self : ParamValidator) (param : pyval) : result pyval :=
  match as_tuple_type (param_type self) with
  | Some items =>
      do found <- py_in param (param_type self) items;
      if negb found
      then raise_format "Exception"
             [Bytes ("invalid option " ++ dquote); py_text (OVal param);
              Bytes (dquote ++ ": Must be one of: "); py_text (param_type self)]
      else Ok param
  | None =>
      if is_type (param_type self) TInt then py_int param
      else if is_type (param_type self) TFloat then py_float param
      else if is_type (param_type self) TStr then
        if is_text param then py_unicode (OVal param)
        else Throw "AssertionError" ""
      else if is_type (param_type self) TBool then Ok (VBool (py_truthy param))
      else
        match param_type self with
        | OModel m =>
            match field self with
            | OVal (VStr f) => objects_get m (deferred self) (Bytes f) param
            | OVal (VUnicode f) => objects_get m (deferred self) (Unicode f) param
            | _ => Throw "TypeError" "get() keywords must be strings"
            end
        | _ =>
            (* valid_type = False: the [raise] evaluates
               [self.param_type.____name__], which no object has *)
            Throw "AttributeError" (no_attribute (param_type self) "____name__")
        end
  end.

(** The [try] block of [check_value]: the first test that holds raises. *)
Definition check_bounds (self : ParamValidator) (val : pyval) : result unit :=
  if bound_and (eq self) val_ne val
  then Throw "Exception" ("must be less than " ++ bound_str (eq self) ++ "!")
  else if bound_and (lt self) val_ge val
  then Throw "Exception" ("must be less than " ++ bound_str (lt self) ++ "!")
  else if bound_and (lte self) val_gt val
  then Throw "Exception" ("must be less than or equal to " ++ bound_str (lte self) ++ "!")
  else if bound_and (gt self) val_le val
  then Throw "Exception" ("must be greater than " ++ bound_str (gt self) ++ "!")
  else if bound_and (gte self) val_lt val
  then Throw "Exception" ("must be greater than or equal to " ++ bound_str (gte self) ++ "!")
  else Ok tt.

(** [ParamValidator.check_value]. *)
Definition check_value (self : ParamValidator) (param : pyval) : result unit :=
  do val <- (if is_type (param_type self) TInt || is_type (param_type self) TFloat
             then Ok param
             else if is_type (param_type self) TStr then py_len param
             else Ok VNone);
  if py_truthy val
  then
    match check_bounds self val with
    | inl _ => Ok tt
    | inr e =>
        do msg <- str_exn e;
        Throw "Exception"
          ((if is_type (param_type self) TStr then "Length " else "Value ") ++ msg)
    end
  else Ok tt.


(** *** Building the validators: the loop of [params] *)

(** The dict [validators], in the order its [items()] are visited: a new
    key goes to the end, an object that is already there is changed in
    place. *)
Fixpoint get_validator (key : string) (validators : list (string * ParamValidator))
  : option ParamValidator :=
  match validators with
  | [] => None
  | (k, obj) :: rest => if String.eqb k key then Some obj else get_validator key rest
  end.

Fixpoint put_validator (key : string) (obj : ParamValidator)
    (validators : list (string * ParamValidator)) : list (string * ParamValidator) :=
  match validators with
  | [] => [(key, obj)]
  | (k, old) :: rest =>
      if String.eqb k key then (k, obj) :: rest
      else (k, old) :: put_validator key obj rest
  end.

(** [for method in v: ...] of the [method] modifier. *)
Fixpoint allow_methods (obj : ParamValidator) (v : list pyval) : result ParamValidator :=
  match v with
  | [] => Ok obj
  | method :: rest =>
      if py_eq method (VStr "GET") then allow_methods (set_allow_GET true obj) rest
      else if py_eq method (VStr "POST") then allow_methods (set_allow_POST true obj) rest
      else raise_format "Exception"
             [Bytes ("Invalid value for __method: " ++ dquote); py_text (OVal method);
              Bytes dquote]
  end.

(** [setattr(obj, last_part, v)] for the names of [BOOL_PARTS] and of
    [NUM_PARTS]. *)
Definition set_bool_part (last_part : string) (b : bool) (obj : ParamValidator)
  : ParamValidator :=
  if String.eqb last_part "deferred" then set_deferred b obj
  else if String.eqb last_part "optional" then set_optional b obj
  else set_many b obj.

Definition set_num_part (last_part : string) (n : number) (obj : ParamValidator)
  : ParamValidator :=
  if String.eqb last_part "gt" then set_gt (Some n) obj
  else if String.eqb last_part "gte" then set_gte (Some n) obj
  else if String.eqb last_part "lt" then set_lt (Some n) obj
  else if String.eqb last_part "lte" then set_lte (Some n) obj
  else set_eq (Some n) obj.

Definition BOOL_PARTS : list string := ["deferred"; "optional"; "many"].
Definition NUM_PARTS : list string := ["gt"; "gte"; "lt"; "lte"; "eq"].

Definition str_in (s : string) (l : list string) : bool := existsb (String.eqb s) l.

(** The branch for a key with modifiers: what the last part does to [obj]. *)
Definition apply_modifier (k last_part : string) (v : pyobj) (obj : ParamValidator)
  : result ParamValidator :=
  if String.eqb last_part "method" then
    match as_tuple_type v with
    | Some methods => allow_methods obj methods
    | None =>
        if obj_eq v (VStr "GET") then Ok (set_allow_GET true obj)
        else if obj_eq v (VStr "POST") then Ok (set_allow_POST true obj)
        else raise_format "Exception"
               [Bytes ("Invalid value for __method: " ++ dquote); py_text v; Bytes dquote]
    end
  else if String.eqb last_part "name" then Ok (set_param_name v obj)
  else if str_in last_part BOOL_PARTS then
    match v with
    | OVal (VBool b) => Ok (set_bool_part last_part b obj)
    | _ => Throw "AssertionError" ""
    end
  else if str_in last_part NUM_PARTS then
    match v with
    | OVal (VNum n) => Ok (set_num_part last_part n obj)
    | _ => Throw "AssertionError" ""
    end
  else if String.eqb last_part "default" then Ok (set_default v (set_optional true obj))
  else if String.eqb last_part "field" then Ok (set_field v obj)
  else Throw "Exception"
         ("Invalid option: " ++ squote ++ "__" ++ last_part ++ squote
            ++ " in param " ++ squote ++ k ++ squote).

(** The branch for a key without modifier: the value is the type. *)
Definition set_type (k : string) (v : pyobj) (obj : ParamValidator) : result ParamValidator :=
  if negb (has_default_manager v)
     && (negb (isinstance_TUPLE_TYPES v) && negb (in_VALID_TYPES v))
  then raise_format "Exception"
         [Bytes "Invalid type for "; Bytes k; Bytes ": "; py_text v;
          Bytes " is not a valid type"]
  else Ok (set_param_type v obj).

(** One turn of [for k, v in kwargs.items()]. *)
Definition configure (validators : list (string * ParamValidator)) (k : string) (v : pyobj)
  : result (list (string * ParamValidator)) :=
  let parts := Text.split "__" k in
  let param_key := hd EmptyString parts in
  let '(validators, obj) :=
    match get_validator param_key validators with
    | None =>
        let obj := ParamValidator_init param_key in
        (put_validator param_key obj validators, obj)
    | Some obj => (validators, obj)
    end in
  do obj <- (if (List.length parts =? 1)%nat
             then set_type k v obj
             else apply_modifier k (List.last parts EmptyString) v obj);
  Ok (put_validator param_key obj validators).

Fixpoint configure_all (validators : list (string * ParamValidator))
    (kwargs : list (string * pyobj)) : result (list (string * ParamValidator)) :=
  match kwargs with
  | [] => Ok validators
  | (k, v) :: rest =>
      do validators <- configure validators k v;
      configure_all validators rest
  end.

(** [params], called with its keyword arguments, up to the definition of
    [_params]: the validators
    that the returned decorator closes over, or the exception raised at
    decoration time. *)
Definition params (kwargs : list (string * pyobj)) : result (list (string * ParamValidator)) :=
  configure_all [] kwargs.

(** *** Handling a request: [wrapped_request_fn] *)

(** The key of a dict of byte strings that is equal to [key], if one can
    be: a [str] itself, a [unicode] of ASCII as its bytes. *)
Definition as_key (key : pyobj) : option string :=
  match key with
  | OVal (VStr s) => Some s
  | OVal (VUnicode u) => ascii_encode u
  | _ => None
  end.

(** [dict.get(key, None)] on a dict whose keys are byte strings: the key is
    hashed first, and only text can be equal to a key. *)
Definition dict_get (d : gmap string pyval) (key : pyobj) : result pyval :=
  match unhashable key with
  | None => Ok (match as_key key ≫= (d !!.) with Some v => v | None => VNone end)
  | Some type => Throw "TypeError" ("unhashable type: " ++ squote ++ type ++ squote)
  end.

(** The lines under [# find the param]: the value, and what the local
    variable [param_type] was set to, [None] when neither assignment ran
    (the variable then keeps what an earlier turn of the loop left in it;
    by [find_param_assigned] it is not read in that case). *)
Definition find_param (request : Request) (param_name : pyobj)
    (allow_GET allow_POST : bool) : result (pyval * option string) :=
  do found <- (if allow_POST
               then do param <- dict_get (DATA request) param_name;
                    Ok (param, Some "POST")
               else Ok (VNone, None));
  if negb (py_truthy (fst found)) && allow_GET
  then do param <- dict_get (GET request) param_name;
       Ok (param, Some "GET")
  else Ok found.

(** The sequence [params] of a [many] parameter before its elements are
    checked: [str(param).split(',')], or [param if isinstance(param, list)
    else (param,)]. *)
Definition many_params (param : pyval) (param_type : option string)
  : result (list pyval) :=
  match param_type with
  | Some "GET" =>
      do s <- py_str (OVal param);
      Ok (map VStr (Text.split "," s))
  | _ => Ok (match param with
             | VList l => l
             | _ => [param]
             end)
  end.

(** The [try] block of one turn of the loop. *)
Definition try_block (arg_name : string) (validator : ParamValidator)
    (param : pyval) (param_type : option string) (kwargs : gmap string pyobj)
  : traced tried :=
  (* optional/default *)
  if negb (py_truthy param) then
    if negb (optional validator)
    then lift (Throw "Exception" "Param is missing")
    else tret (Continued (<[arg_name := default validator]> kwargs))
  (* check type, value *)
  else if many validator then
    run params <- lift (many_params param param_type);
    run params <- map_traced
                    (fun p => exec tell (EvCheckType arg_name p);
                              lift (check_type validator p)) params;
    run _ <- map_traced
               (fun p => exec tell (EvCheckValue arg_name p);
                         lift (check_value validator p)) params;
    tret (Checked (VList params))
  else
    exec tell (EvCheckType arg_name param);
    run param <- lift (check_type validator param);
    exec tell (EvCheckValue arg_name param);
    run _ <- lift (check_value validator param);
    tret (Checked param).

(** The expression of the [except] clause,
    ['Invalid param "%s": %s' % (param_name, str(e))]: [str(e)] is evaluated
    first and raises for a message that is a [unicode] beyond ASCII; the
    result is a [unicode] when the name is. *)
Definition error_body (param_name : pyobj) (e : exn) : result text :=
  do msg <- str_exn e;
  format [Bytes ("Invalid param " ++ dquote); py_text param_name;
          Bytes (dquote ++ ": "); Bytes msg].

(** The text of the error response, when there is one. *)
Definition invalid_param (param_name : pyobj) (e : exn) : text :=
  match error_body param_name e with
  | inl body => body
  | inr _ => Bytes EmptyString
  end.

(** The methods a validator reads from, given the default of the request. *)
Definition allowed_methods (default_param_method : string) (validator : ParamValidator)
  : bool * bool :=
  let use_default_methods := negb (allow_GET validator) && negb (allow_POST validator) in
  let allow_GET :=
    if use_default_methods then String.eqb default_param_method "GET"
    else allow_GET validator in
  let allow_POST :=
    if use_default_methods then String.eqb default_param_method "POST"
    else allow_POST validator in
  (allow_GET, allow_POST).

(** One turn of [for arg_name, validator in validators.items()]. *)
Definition loop_body (request : Request) (default_param_method : string)
    (arg_name : string) (validator : ParamValidator) (kwargs : gmap string pyobj)
  : traced step :=
  exec tell (EvParam arg_name);
  let param_name := param_name validator in
  (* what methods are allowed? *)
  let '(allow_GET, allow_POST) := allowed_methods default_param_method validator in
  (* find the param *)
  run found <- lift (find_param request param_name allow_GET allow_POST);
  let '(param, param_type) := found in
  run t <- attempt (try_block arg_name validator param param_type kwargs);
  match t with
  | inr e =>
      (* the [except] clause is outside the [try]: what it raises is not
         caught *)
      run body <- lift (error_body param_name e);
      tret (Return body HTTP_400_BAD_REQUEST)
  | inl (Continued kwargs) => tret (Next kwargs)
  | inl (Checked value) => tret (Next (<[arg_name := OVal value]> kwargs))
  end.

(** The loop over the validators. *)
Fixpoint validate (request : Request) (default_param_method : string)
    (validators : list (string * ParamValidator)) (kwargs : gmap string pyobj)
  : traced step :=
  match validators with
  | [] => tret (Next kwargs)
  | (arg_name, validator) :: rest =>
      run s <- loop_body request default_param_method arg_name validator kwargs;
      match s with
      | Next kwargs => validate request default_param_method rest kwargs
      | Return error status => tret (Return error status)
      end
  end.

(** ['POST' if request_method == 'POST' or request_method == 'PUT' else
    'GET']. *)
Definition default_method (request_method : string) : string :=
  if String.eqb request_method "POST" || String.eqb request_method "PUT"
  then "POST" else "GET".

(** The function that stands for the decorated handler [fn]; [validators]
    is the dict built by [params]. *)
Definition wrapped_request_fn {R : Type}
    (validators : list (string * ParamValidator))
    (fn : pyarg -> list pyarg -> gmap string pyobj -> R)
    (first_arg : pyarg) (args : list pyarg) (kwargs : gmap string pyobj)
  : traced (answer R) :=
  let request := match args with
                 | [] => first_arg
                 | a :: _ => a
                 end in
  match request with
  | NotRequest o => lift (Throw "AttributeError" (no_attribute o "META"))
  | IsRequest request =>
      let request_method := REQUEST_METHOD request in
      let default_param_method := default_method request_method in
      (* Validate the params *)
      run s <- validate request default_param_method validators kwargs;
      match s with
      | Return error status => tret (Response error status)
      | Next kwargs =>
          exec tell EvHandler;
          tret (Returned (fn first_arg args kwargs))
      end
  end.

(** *** The model of the test suite *)

(** A record of [_MockUser]: [id] (also [pk]), [name] and [email]. *)
Record MockUser : Type := {
  user_id : Z;
  user_name : pyval;
  user_email : pyval
}.

(** [getattr(obj, k)] for the attributes of the class other than [id]
    and [pk]; the manager [objects] is not a value of a request and is
    given as [None] of the option. *)
Definition MockUser_getattr (obj : MockUser) (k : text) : result (option pyval) :=
  do k <- str_of_text k;
  if String.eqb k "name" then Ok (Some (user_name obj))
  else if String.eqb k "email" then Ok (Some (user_email obj))
  else if String.eqb k "_default_manager" then Ok (Some VNone)
  else if String.eqb k "objects" then Ok None
  else Throw "AttributeError"
         (squote ++ "_MockUser" ++ squote ++ " object has no attribute "
            ++ squote ++ k ++ squote).

(** [_MockUserManager.get] with one keyword [k=v], over the records of
    [_objects] in the order they are visited. *)
Fixpoint MockUserManager_get (objects : list MockUser) (k : text) (v : pyval)
  : result pyval :=
  match objects with
  | [] => raise_format "Exception"
            [Bytes "Invalid argument(s): .get("; k; Bytes ("=" ++ squote);
             py_text (OVal v); Bytes (squote ++ ")")]
  | obj :: rest =>
      if text_eqb k "id" || text_eqb k "pk" then
        do n <- py_int v;
        if py_eq (VInt (user_id obj)) n then Ok (VObj "_MockUser" (user_id obj))
        else MockUserManager_get rest k v
      else
        do attr <- MockUser_getattr obj k;
        match attr with
        | Some a =>
            if py_eq a v then Ok (VObj "_MockUser" (user_id obj))
            else MockUserManager_get rest k v
        | None => MockUserManager_get rest k v
        end
  end.

(** The class [_MockUser] as a model: [only] returns the manager itself. *)
Definition MockUser_model (objects : list MockUser) : model :=
  {| model_name := "_MockUser";
     objects_get := fun _ k v => MockUserManager_get objects k v |}.

End Interpreter.

(** ** An instance of the three open conversions

    Enough of the ['decimal'] codec, of [float] and of [repr] to run the
    examples: the codec reads ASCII as it is and refuses every other code
    point, whole-number text is read as a float, text is quoted without
    escapes, integers are printed in decimal, and any other object is
    printed as the name of its type. *)
#[global] Instance sample_decimal : DecimalCodec :=
  fun c => if is_ascii_code c then Some (ascii_of_N c) else None.

Definition sample_float_of_text (s : string) : option float :=
  float_of_Z <$> Text.int_literal s.

Definition sample_repr (v : pyobj) : string :=
  match v with
  | OVal (VStr s) => squote ++ s ++ squote
  | OVal (VUnicode u) => "u" ++ squote ++ bytes_of_codes u ++ squote
  | OVal (VInt z) => pretty z
  | _ => "<" ++ obj_type_name v ++ ">"
  end.

(** The parameter an event belongs to; the call of the handler belongs to
    none. *)
Definition event_arg (e : event) : option string :=
  match e with
  | EvParam a | EvCheckType a _ | EvCheckValue a _ => Some a
  | EvHandler => None
  end.

(** The request among the positional arguments, as [wrapped_request_fn]
    picks it. *)
Definition request_arg (first_arg : pyarg) (args : list pyarg) : pyarg :=
  match args with
  | [] => first_arg
  | a :: _ => a
  end.

(** ** Declarations and requests of the test suite *)

(** A [GET] request with the given query parameters, and a [POST] request
    with the given body. *)
Definition get_request (query : list (string * pyval)) : Request :=
  {| REQUEST_METHOD := "GET"; GET := list_to_map query; DATA := ∅ |}.

Definition post_request (query body : list (string * pyval)) : Request :=
  {| REQUEST_METHOD := "POST"; GET := list_to_map query; DATA := list_to_map body |}.

(** [@params(my_int=int, my_int__gt=10)], as in [test_gt]. *)
Definition gt_config : list (string * pyobj) :=
  [("my_int", OType TInt); ("my_int__gt", OVal (VInt 10))].

(** [@params(my_int=int, my_int__eq=4)]. *)
Definition eq_config : list (string * pyobj) :=
  [("my_int", OType TInt); ("my_int__eq", OVal (VInt 4))].

(** [@params(flag=bool)]. *)
Definition bool_config : list (string * pyobj) :=
  [("flag", OType TBool)].

(** The store of [test_django_model] after its one [create]. *)
Definition mock_users : list MockUser :=
  [{| user_id := 1; user_name := VStr "Cam Saul"; user_email := VStr "Myfakeemail@toucan.farm" |}].

(** The validators of some declarations of the test suite, as [params]
    builds them (see [params_three]). *)
Definition int_validator : ParamValidator :=
  set_param_type (OType TInt) (ParamValidator_init "my_int").

Definition color_validator : ParamValidator :=
  set_param_type (OColl CTuple [VStr "red"; VStr "green"]) (ParamValidator_init "color").

Definition str_validator : ParamValidator :=
  set_param_type (OType TStr) (ParamValidator_init "my_str").

(** [@params(my_int=int, my_int__method='GET')], as in [test_method_get]. *)
Definition get_only_validator : ParamValidator :=
  set_allow_GET true int_validator.

(** [@params(user_ids=int, user_ids__many=True)], as in [test_many], and the
    same with [user_ids__optional=True]. *)
Definition many_validator : ParamValidator :=
  set_many true (set_param_type (OType TInt) (ParamValidator_init "user_ids")).

Definition many_optional_validator : ParamValidator :=
  set_optional true many_validator.

(** [@params(user=_MockUser)], as in [test_django_model]. *)
Definition user_validator : ParamValidator :=
  set_param_type (OModel (MockUser_model sample_repr mock_users)) (ParamValidator_init "user").

(** The text [Café] as a [unicode], and the exception [check_type] raises
    for it as a colour: the message is a [unicode], as the value is. *)
Definition cafe : list N := [67; 97; 102; 233]%N.

Definition cafe_refused : exn :=
  Raise "Exception"
    (Unicode (codes ("invalid option " ++ dquote) ++ cafe
                ++ codes (dquote ++ ": Must be one of: <tuple>"))%list).

(** The text [Café,the] as a [unicode]. *)
Definition cafe_the : list N := (cafe ++ codes ",the")%list.

(** The exception [check_type] raises for the colour orange. *)
Definition orange_refused : exn :=
  Raise "Exception"
    ("invalid option " ++ dquote ++ "orange" ++ dquote ++ ": Must be one of: "
       ++ sample_repr (OColl CTuple [VStr "red"; VStr "green"])).

(** The decorated handler of a declaration on a request, with a handler that
    returns its keyword arguments; [None] when the declaration raises. *)
Definition run_test (declaration : list (string * pyobj)) (request : Request)
  : option (result (answer (list (string * pyobj)))) :=
  match params sample_repr declaration with
  | inl validators =>
      Some (wrapped_request_fn sample_float_of_text sample_repr validators
              (fun _ _ kwargs => map_to_list kwargs) (IsRequest request) [] ∅).2
  | inr _ => None
  end.

(** The class attributes [_objects] and [_next_id] of [_MockUserManager]. *)
Record MockStore : Type := {
  store_objects : list MockUser;
  store_next_id : Z
}.

Definition MockStore_empty : MockStore :=
  {| store_objects := []; store_next_id := 1 |}.

(** [_MockUserManager.create(name=..., email=...)]: the new record and the
    store after the call; an attribute that is not given keeps the class's
    [None]. *)
Definition MockUserManager_create (name email : pyval) (store : MockStore)
  : MockUser * MockStore :=
  let u := {| user_id := store_next_id store; user_name := name; user_email := email |} in
  (u, {| store_objects := (store_objects store ++ [u])%list;
         store_next_id := store_next_id store + 1 |}).

(** The first part of a keyword of the decorator, the key of its validator. *)
Definition base_key (k : string) : string := hd EmptyString (Text.split "__" k).

(** The last parts that the loop of [params] knows. *)
Definition known_parts : list string :=
  ["method"; "name"; "deferred"; "optional"; "many";
   "gt"; "gte"; "lt"; "lte"; "eq"; "default"; "field"].

(** More validators and exceptions of the examples. *)
Definition gt_validator : ParamValidator :=
  set_gt (Some (NInt 10)) int_validator.

Definition many_lt_validator : ParamValidator :=
  set_lt (Some (NInt 100)) many_validator.

Definition many_str_validator : ParamValidator :=
  set_many true (set_param_type (OType TStr) (ParamValidator_init "tags")).


Definition literal_refused (s : string) : exn :=
  Raise "ValueError"
    ("invalid literal for int() with base 10: " ++ sample_repr (OVal (VStr s))).

(** What one keyword does to the validator of its parameter: the two
    branches of the loop of [params]. *)
Definition keyword_update (py_repr : pyobj -> string) (k : string) (v : pyobj)
    (obj : ParamValidator) : result ParamValidator :=
  if (List.length (Text.split "__" k) =? 1)%nat
  then set_type py_repr k v obj
  else apply_modifier py_repr k (List.last (Text.split "__" k) EmptyString) v obj.

(** The validator a keyword works on: the one of its key, or a new one. *)
Definition validator_of (key : string) (validators : list (string * ParamValidator))
  : ParamValidator :=
  match get_validator key validators with
  | Some obj => obj
  | None => ParamValidator_init key
  end.

(** A keyword of the decorator that sets a method for the parameter
    [arg_name]: its first part is [arg_name] and its last part, of two or
    more, is [method]. *)
Definition declares_method (arg_name k : string) : bool :=
  let parts := Text.split "__" k in
  String.eqb (hd EmptyString parts) arg_name
  && negb (List.length parts =? 1)%nat
  && String.eqb (List.last parts EmptyString) "method".

(** * Properties *)

Section Properties.

Context {decimal : DecimalCodec}.
Variable fl : string -> option float.
Variable rp : pyobj -> string.

(** A [raise] returns nothing. *)
Lemma raise_format_raises {A : Type} (cls : string) (pieces : list text) (a : A) :
  raise_format cls pieces <> Ok a.
Proof. unfold raise_format. destruct (format pieces); discriminate. Qed.

(** ** The record of calls *)

Lemma tbind_log {A B : Type} (P : event -> Prop) (m : traced A) (f : A -> traced B) :
  Forall P m.1 -> (forall a, Forall P (f a).1) -> Forall P (tbind m f).1.
Proof.
  intros Hm Hf. destruct m as [log [a | e]].
  - unfold tbind. specialize (Hf a). destruct (f a) as [log' r]. simpl in *.
    apply Forall_app. split; assumption.
  - exact Hm.
Qed.

Lemma map_traced_log {A B : Type} (P : event -> Prop) (f : A -> traced B) (xs : list A) :
  (forall x, Forall P (f x).1) -> Forall P (map_traced f xs).1.
Proof.
  intros Hf. induction xs as [| x xs IH]; simpl.
  - constructor.
  - apply tbind_log; [apply Hf |]. intros y.
    apply tbind_log; [exact IH |]. intros ys. constructor.
Qed.

Lemma try_block_log arg_name validator param param_type kwargs :
  Forall (fun ev => event_arg ev = Some arg_name)
    (try_block fl rp arg_name validator param param_type kwargs).1.
Proof.
  unfold try_block.
  destruct (negb (py_truthy param)).
  { destruct (negb (optional validator)); constructor. }
  destruct (many validator).
  - apply tbind_log; [constructor |]. intros raw. apply tbind_log.
    + apply map_traced_log. intros p. apply tbind_log; [repeat constructor |].
      intros _. constructor.
    + intros ps. apply tbind_log; [| intros; constructor].
      apply map_traced_log. intros p. apply tbind_log; [repeat constructor |].
      intros _. constructor.
  - apply tbind_log; [repeat constructor |]. intros _.
    apply tbind_log; [constructor |]. intros p.
    apply tbind_log; [repeat constructor |]. intros _.
    apply tbind_log; [constructor |]. intros _. constructor.
Qed.

(** One turn of the loop, once the parameter was looked up. *)
Lemma loop_body_found request dpm arg_name validator kwargs param param_type :
  find_param request (param_name validator)
    (allowed_methods dpm validator).1 (allowed_methods dpm validator).2
    = Ok (param, param_type) ->
  loop_body fl rp request dpm arg_name validator kwargs
  = (EvParam arg_name :: (try_block fl rp arg_name validator param param_type kwargs).1,
     match (try_block fl rp arg_name validator param param_type kwargs).2 with
     | inr e =>
         match error_body rp (param_name validator) e with
         | inl body => Ok (Return body HTTP_400_BAD_REQUEST)
         | inr e' => inr e'
         end
     | inl (Continued kwargs') => Ok (Next kwargs')
     | inl (Checked value) => Ok (Next (<[arg_name := OVal value]> kwargs))
     end).
Proof.
  intros Hfind. unfold loop_body.
  destruct (allowed_methods dpm validator) as [allow_GET allow_POST]. simpl in Hfind.
  rewrite Hfind. unfold tell, lift, attempt, tret, Ok. cbn.
  destruct (try_block fl rp arg_name validator param param_type kwargs) as [log [t | e]];
    cbn; [destruct t |]; cbn; try (rewrite app_nil_r; reflexivity).
  destruct (error_body rp (param_name validator) e); cbn; rewrite ?app_nil_r; reflexivity.
Qed.

Lemma loop_body_log request dpm arg_name validator kwargs :
  Forall (fun ev => event_arg ev = Some arg_name)
    (loop_body fl rp request dpm arg_name validator kwargs).1.
Proof.
  destruct (find_param request (param_name validator)
              (allowed_methods dpm validator).1 (allowed_methods dpm validator).2)
    as [[param param_type] | e] eqn:Hfind.
  - rewrite (loop_body_found _ _ _ _ _ _ _ Hfind). simpl.
    constructor; [reflexivity | apply try_block_log].
  - unfold loop_body.
    destruct (allowed_methods dpm validator) as [allow_GET allow_POST]. simpl in Hfind.
    rewrite Hfind. repeat constructor.
Qed.

(** A turn that ends in the next turn has bound its own key and left the
    other keys as they were. *)
Lemma try_block_continued arg_name validator param param_type kwargs log kwargs' :
  try_block fl rp arg_name validator param param_type kwargs = (log, Ok (Continued kwargs')) ->
  kwargs' = <[arg_name := default validator]> kwargs.
Proof.
  unfold try_block. intros H.
  destruct (negb (py_truthy param)).
  - destruct (negb (optional validator)); [discriminate H |].
    injection H as _ <-. reflexivity.
  - destruct (many validator).
    + destruct (many_params rp param param_type) as [raw | e]; [| discriminate H].
      unfold lift, tbind in H.
      destruct (map_traced _ raw) as [la [ps | e]]; [| discriminate H].
      destruct (map_traced _ ps) as [lb [us | e]]; discriminate H.
    + unfold tell, lift, tbind in H.
      destruct (check_type fl rp validator param) as [p | e]; [| discriminate H].
      destruct (check_value rp validator p); discriminate H.
Qed.

Lemma loop_body_next request dpm arg_name validator kwargs log kwargs' :
  loop_body fl rp request dpm arg_name validator kwargs = (log, Ok (Next kwargs')) ->
  exists value, kwargs' = <[arg_name := value]> kwargs.
Proof.
  intros H.
  destruct (find_param request (param_name validator)
              (allowed_methods dpm validator).1 (allowed_methods dpm validator).2)
    as [[param param_type] | e] eqn:Hfind.
  - rewrite (loop_body_found _ _ _ _ _ _ _ Hfind) in H.
    destruct (try_block fl rp arg_name validator param param_type kwargs)
      as [l1 [[k1 | value] | e]] eqn:Htry; simpl in H.
    + injection H as _ <-. eexists. eapply try_block_continued. exact Htry.
    + injection H as _ <-. eexists. reflexivity.
    + destruct (error_body rp (param_name validator) e); discriminate H.
  - unfold loop_body in H.
    destruct (allowed_methods dpm validator) as [allow_GET allow_POST]. simpl in Hfind.
    rewrite Hfind in H. discriminate H.
Qed.

Lemma validate_log request dpm validators kwargs :
  Forall (fun ev => exists a, event_arg ev = Some a /\ a ∈ validators.*1)
    (validate fl rp request dpm validators kwargs).1.
Proof.
  revert kwargs. induction validators as [| [arg_name validator] rest IH]; intros kwargs.
  - constructor.
  - simpl. apply tbind_log.
    + eapply Forall_impl; [apply loop_body_log |].
      intros ev Hev. exists arg_name. split; [exact Hev | apply elem_of_cons; by left].
    + intros [kwargs' | error status]; [| constructor].
      eapply Forall_impl; [apply IH |].
      intros ev (a & Hev & Ha). exists a. split; [exact Hev | apply elem_of_cons; by right].
Qed.

(** The loop over [pre ++ post], when its turns for [pre] all end in the
    next turn: the turns for [post] follow, on the keyword arguments the
    turns for [pre] left. *)
Lemma validate_app request dpm pre post kwargs log kwargs' :
  validate fl rp request dpm pre kwargs = (log, Ok (Next kwargs')) ->
  validate fl rp request dpm (pre ++ post) kwargs
  = ((log ++ (validate fl rp request dpm post kwargs').1)%list,
     (validate fl rp request dpm post kwargs').2).
Proof.
  revert kwargs log. induction pre as [| [arg_name validator] pre IH]; intros kwargs log H.
  - simpl in H. injection H as <- <-. simpl.
    destruct (validate fl rp request dpm post kwargs); reflexivity.
  - simpl in *.
    destruct (loop_body fl rp request dpm arg_name validator kwargs) as [l1 [s | e]];
      [| discriminate H].
    destruct s as [k | error status]; [| discriminate H].
    unfold tbind in *.
    destruct (validate fl rp request dpm pre k) as [l2 r2] eqn:Hpre.
    injection H as <- ->.
    rewrite (IH _ _ Hpre).
    destruct (validate fl rp request dpm post kwargs') as [l3 r3]. simpl.
    rewrite app_assoc. reflexivity.
Qed.

(** The keyword arguments after the loop agree with those before it on
    every key that is not a validator's. *)
Lemma validate_other_keys request dpm validators kwargs log kwargs' k :
  validate fl rp request dpm validators kwargs = (log, Ok (Next kwargs')) ->
  k ∉ validators.*1 ->
  kwargs' !! k = kwargs !! k.
Proof.
  revert kwargs log. induction validators as [| [arg_name validator] rest IH];
    intros kwargs log H Hk.
  - simpl in H. injection H as _ <-. reflexivity.
  - simpl in H. rewrite fmap_cons in Hk. apply not_elem_of_cons in Hk as [Hne Hrest].
    destruct (loop_body fl rp request dpm arg_name validator kwargs)
      as [l1 [[k1 | error status] | e]] eqn:Hbody; try discriminate H.
    unfold tbind in H.
    destruct (validate fl rp request dpm rest k1) as [l2 r2] eqn:Hv.
    injection H as _ ->.
    rewrite (IH _ _ Hv Hrest).
    apply loop_body_next in Hbody as [value ->].
    apply lookup_insert_ne. simpl in Hne. congruence.
Qed.

(** ** All or nothing *)




(** ** Rejection *)

(** The text of the response, for a name and a message of type [str]. *)
Lemma append_empty_r (s : string) : s ++ EmptyString = s.
Proof.
  induction s as [| c s IH]; [reflexivity |].
  change (String c (s ++ EmptyString) = String c s). f_equal. exact IH.
Qed.

Lemma error_body_str (name : string) (e : exn) :
  error_body rp (OVal (VStr name)) e
  = do msg <- str_exn e;
    Ok (Bytes ("Invalid param " ++ dquote ++ name ++ dquote ++ ": " ++ msg)).
Proof.
  unfold error_body. destruct (str_exn e) as [msg | e']; [| reflexivity].
  cbn. rewrite append_empty_r. reflexivity.
Qed.

(** The text of the response for a missing parameter: a [str] when the name
    is not a [unicode], and a [unicode] when it is, for the message is
    ASCII. *)
Lemma error_body_missing (name : pyobj) :
  error_body rp name (Raise "Exception" "Param is missing")
  = Ok (invalid_param rp name (Raise "Exception" "Param is missing")).
Proof.
  unfold invalid_param.
  assert (H : exists body, error_body rp name (Raise "Exception" "Param is missing")
                           = Ok body).
  { unfold error_body. cbn. unfold format. destruct (py_text rp name) as [s | u].
    - cbn. eexists. reflexivity.
    - cbn. eexists. reflexivity. }
  destruct H as [body ->]. reflexivity.
Qed.

(** X23.  Take a request and the validators in the order the loop visits
    them, [pre], then [(arg_name, validator)], then [post], the name of
    [validator] in the request being the [str] [name].  If the turns for
    [pre] all pass and the [try] block of [validator] raises [e] (the
    parameter is missing, [check_type] raises, or [check_value] raises),
    then: when [str(e)] gives [msg], the decorated function returns the
    response with status 400 and error [Invalid param "<name>": <msg>];
    when [str(e)] raises, the decorated function raises that exception and
    returns no response; in both cases the handler is not called, and every
    call made belongs to a parameter of [pre] or to [arg_name], none to a
    parameter of [post]. *)
Theorem invalid_param_rejected {R : Type}
    (fn : pyarg -> list pyarg -> gmap string pyobj -> R)
    (first_arg : pyarg) (args : list pyarg) (kwargs : gmap string pyobj)
    (request : Request) (pre post : list (string * ParamValidator))
    (arg_name : string) (validator : ParamValidator)
    (log log' : list event) (kwargs' : gmap string pyobj)
    (param : pyval) (param_type : option string) (e : exn) (name : string) :
  request_arg first_arg args = IsRequest request ->
  validate fl rp request (default_method (REQUEST_METHOD request)) pre kwargs
    = (log, Ok (Next kwargs')) ->
  param_name validator = OVal (VStr name) ->
  find_param request (param_name validator)
    (allowed_methods (default_method (REQUEST_METHOD request)) validator).1
    (allowed_methods (default_method (REQUEST_METHOD request)) validator).2
    = Ok (param, param_type) ->
  try_block fl rp arg_name validator param param_type kwargs' = (log', inr e) ->
  wrapped_request_fn fl rp (pre ++ (arg_name, validator) :: post) fn first_arg args kwargs
    = ((log ++ EvParam arg_name :: log')%list,
       match str_exn e with
       | inl msg =>
           Ok (Response
                 (Bytes ("Invalid param " ++ dquote ++ name ++ dquote ++ ": " ++ msg))
                 400)
       | inr e' => inr e'
       end)
  /\ (EvHandler ∉ (log ++ EvParam arg_name :: log')%list)
  /\ (forall ev a, ev ∈ (log ++ EvParam arg_name :: log')%list ->
                   event_arg ev = Some a -> a ∈ pre.*1 \/ a = arg_name).
Proof.
  intros Hreq Hpre Hname Hfind Htry.
  assert (Hlog : Forall (fun ev => exists a, event_arg ev = Some a
                                   /\ (a ∈ pre.*1 \/ a = arg_name))
                   (log ++ EvParam arg_name :: log')%list).
  { apply Forall_app. split.
    - pose proof (validate_log request (default_method (REQUEST_METHOD request)) pre kwargs)
        as Hl.
      rewrite Hpre in Hl. simpl in Hl.
      eapply Forall_impl; [exact Hl |].
      intros ev (a & Hev & Ha). exists a. auto.
    - constructor; [exists arg_name; auto |].
      pose proof (try_block_log arg_name validator param param_type kwargs') as Hl.
      rewrite Htry in Hl. simpl in Hl.
      eapply Forall_impl; [exact Hl |].
      intros ev Hev. exists arg_name. auto. }
  rewrite Forall_forall in Hlog.
  split; [| split].
  - unfold wrapped_request_fn.
    change (match args with [] => first_arg | a :: _ => a end)
      with (request_arg first_arg args).
    rewrite Hreq. rewrite (validate_app _ _ _ _ _ _ _ Hpre). simpl.
    rewrite (loop_body_found _ _ _ _ _ _ _ Hfind). rewrite Htry. simpl.
    rewrite Hname, error_body_str.
    destruct (str_exn e) as [msg | e']; cbn; rewrite ?app_nil_r; reflexivity.
  - intros Hin. destruct (Hlog _ Hin) as (a & Hev & _). discriminate Hev.
  - intros ev a Hin Hev. destruct (Hlog _ Hin) as (b & Hev' & Hb). congruence.
Qed.

(** What the [try] block returns or raises, the record of calls left
    out: the exception of a rejection is the missing parameter's, or the
    first one [check_type] raises, or else the first one [check_value]
    raises. *)
Lemma map_traced_result {A B : Type} (ev : A -> event) (f : A -> result B) (xs : list A) :
  (map_traced (fun p => exec tell (ev p); lift (f p)) xs).2 = map_result f xs.
Proof.
  induction xs as [| x xs IH]; [reflexivity |]. simpl.
  unfold tell, lift. cbn.
  destruct (f x) as [y | e]; [| reflexivity]. cbn.
  destruct (map_traced _ xs) as [l r]. simpl in IH. subst r.
  destruct (map_result f xs); reflexivity.
Qed.

Lemma try_block_result arg_name validator param param_type kwargs :
  (try_block fl rp arg_name validator param param_type kwargs).2
  = if negb (py_truthy param) then
      if negb (optional validator) then Throw "Exception" "Param is missing"
      else Ok (Continued (<[arg_name := default validator]> kwargs))
    else if many validator then
      do raw <- many_params rp param param_type;
      do params <- map_result (check_type fl rp validator) raw;
      do _ <- map_result (check_value rp validator) params;
      Ok (Checked (VList params))
    else
      do param <- check_type fl rp validator param;
      do _ <- check_value rp validator param;
      Ok (Checked param).
Proof.
  unfold try_block.
  destruct (negb (py_truthy param)).
  { destruct (negb (optional validator)); reflexivity. }
  destruct (many validator).
  - destruct (many_params rp param param_type) as [raw | e]; [| reflexivity].
    unfold lift. unfold tbind at 1. cbn [rbind].
    pose proof (map_traced_result (EvCheckType arg_name) (check_type fl rp validator)
                  raw) as H1.
    destruct (map_traced _ raw) as [l1 r1].
    simpl in H1. rewrite <- H1. destruct r1 as [ps | e]; [| reflexivity].
    unfold tbind at 1.
    pose proof (map_traced_result (EvCheckValue arg_name) (check_value rp validator) ps)
      as H2.
    destruct (map_traced _ ps) as [l2 r2]. simpl in H2. simpl. rewrite <- H2.
    destruct r2; reflexivity.
  - unfold tell, lift. cbn.
    destruct (check_type fl rp validator param) as [p | e]; [| reflexivity]. cbn.
    destruct (check_value rp validator p); reflexivity.
Qed.

(** When every element passes, the calls of a checked comprehension are
    one call for each element, in order. *)
Lemma map_traced_ok {A B : Type} (ev : A -> event) (f : A -> result B)
    (xs : list A) (ys : list B) :
  map_result f xs = Ok ys ->
  map_traced (fun p => exec tell (ev p); lift (f p)) xs = (map ev xs, Ok ys).
Proof.
  revert ys. induction xs as [| x xs IH]; intros ys H; simpl in *.
  - injection H as <-. reflexivity.
  - unfold tell, lift. cbn.
    destruct (f x) as [y | e]; [| discriminate H]. cbn in *.
    destruct (map_result f xs) as [ys' | e]; [| discriminate H].
    injection H as <-. rewrite (IH ys' eq_refl). cbn. rewrite app_nil_r. reflexivity.
Qed.

Lemma map_result_length {A B : Type} (f : A -> result B) (xs : list A) (ys : list B) :
  map_result f xs = Ok ys -> List.length ys = List.length xs.
Proof.
  revert ys. induction xs as [| x xs IH]; intros ys H; simpl in *.
  - injection H as <-. reflexivity.
  - destruct (f x) as [y | e]; [| discriminate H]. cbn in H.
    destruct (map_result f xs) as [ys' | e]; [| discriminate H].
    injection H as <-. simpl. f_equal. apply IH. reflexivity.
Qed.

(** ** Absent parameters *)

(** The turn of a parameter whose value is false as a truth value. *)
Lemma loop_body_absent (request : Request) (dpm arg_name : string)
    (validator : ParamValidator) (kwargs : gmap string pyobj)
    (param : pyval) (param_type : option string) :
  find_param request (param_name validator)
    (allowed_methods dpm validator).1 (allowed_methods dpm validator).2
    = Ok (param, param_type) ->
  py_truthy param = false ->
  loop_body fl rp request dpm arg_name validator kwargs
  = ([EvParam arg_name],
     Ok (if optional validator
         then Next (<[arg_name := default validator]> kwargs)
         else Return (invalid_param rp (param_name validator)
                        (Raise "Exception" "Param is missing"))
                HTTP_400_BAD_REQUEST)).
Proof.
  intros Hfind Hfalse.
  rewrite (loop_body_found _ _ _ _ _ _ _ Hfind).
  unfold try_block. rewrite Hfalse. simpl.
  destruct (optional validator); [reflexivity |].
  simpl. rewrite error_body_missing. reflexivity.
Qed.


(** The values that count as absent. *)
Lemma py_truthy_false (v : pyval) :
  py_truthy v = false <->
  v = VNone \/ v = VBool false \/ v = VInt 0 \/ (exists s, v = VFloat (S754_zero s))
  \/ v = VStr EmptyString \/ v = VUnicode [] \/ v = VList [].
Proof.
  split.
  - destruct v as [| [b | z | f] | s | u | l | c r]; simpl; intros H.
    + auto.
    + subst b. auto.
    + apply negb_false_iff, Z.eqb_eq in H. subst z. auto.
    + destruct f; try discriminate H. right. right. right. left. eauto.
    + destruct s; [auto 10 | discriminate H].
    + destruct u; [auto 10 | discriminate H].
    + destruct l; [auto 10 | discriminate H].
    + discriminate H.
  - intros [-> | [-> | [-> | [[s ->] | [-> | [-> | ->]]]]]]; reflexivity.
Qed.

(** The loop over [pre ++ post] in general: the turns for [post] follow
    only when the turns for [pre] all end in the next turn. *)
Lemma validate_app_gen request dpm pre post kwargs :
  validate fl rp request dpm (pre ++ post) kwargs
  = (run s <- validate fl rp request dpm pre kwargs;
     match s with
     | Next kwargs' => validate fl rp request dpm post kwargs'
     | Return error status => tret (Return error status)
     end).
Proof.
  revert kwargs. induction pre as [| [arg_name validator] pre IH]; intros kwargs.
  - simpl. destruct (validate fl rp request dpm post kwargs); reflexivity.
  - simpl.
    destruct (loop_body fl rp request dpm arg_name validator kwargs)
      as [l1 [[k1 | error status] | e]]; try reflexivity.
    + unfold tbind at 1. rewrite IH. unfold tbind.
      destruct (validate fl rp request dpm pre k1) as [l2 [[k2 | error status] | e]];
        simpl; try (rewrite ?app_nil_r; reflexivity).
      destruct (validate fl rp request dpm post k2) as [l3 r3].
      rewrite app_assoc. reflexivity.
    + cbn. rewrite !app_nil_r. reflexivity.
Qed.

(** C10.  For a validator with [many] and [optional] set whose value is
    absent from the request: when the request passes and the handler is
    called, the keyword argument [arg_name] is the validator's default as
    it was configured ([None] when no default was given), not a list. *)
Theorem many_default_not_wrapped {R : Type}
    (fn : pyarg -> list pyarg -> gmap string pyobj -> R)
    (first_arg : pyarg) (args : list pyarg) (kwargs : gmap string pyobj)
    (request : Request) (pre post : list (string * ParamValidator))
    (arg_name : string) (validator : ParamValidator)
    (param : pyval) (param_type : option string) (log : list event) (r : R) :
  request_arg first_arg args = IsRequest request ->
  NoDup ((pre ++ (arg_name, validator) :: post)%list).*1 ->
  many validator = true ->
  optional validator = true ->
  find_param request (param_name validator)
    (allowed_methods (default_method (REQUEST_METHOD request)) validator).1
    (allowed_methods (default_method (REQUEST_METHOD request)) validator).2
    = Ok (param, param_type) ->
  py_truthy param = false ->
  wrapped_request_fn fl rp (pre ++ (arg_name, validator) :: post) fn first_arg args kwargs
    = (log, Ok (Returned r)) ->
  exists kwargs', r = fn first_arg args kwargs'
                  /\ kwargs' !! arg_name = Some (default validator).
Proof.
  intros Hreq Hnodup _ Hopt Hfind Hfalse Hrun.
  unfold wrapped_request_fn in Hrun.
  change (match args with [] => first_arg | a :: _ => a end)
    with (request_arg first_arg args) in Hrun.
  rewrite Hreq in Hrun.
  rewrite fmap_app, fmap_cons in Hnodup. simpl in Hnodup.
  apply NoDup_app in Hnodup as (_ & _ & Hnodup).
  apply NoDup_cons in Hnodup as [Hpost _].
  destruct (validate fl rp request (default_method (REQUEST_METHOD request)) pre kwargs)
    as [l1 [[k1 | error status] | e]] eqn:Hpre.
  - destruct (validate fl rp request (default_method (REQUEST_METHOD request)) post
                (<[arg_name := default validator]> k1)) as [l3 r3] eqn:Hv.
    assert (Hturn : validate fl rp request (default_method (REQUEST_METHOD request))
                      ((arg_name, validator) :: post) k1
                    = (EvParam arg_name :: l3, r3)).
    { cbn [validate].
      rewrite (loop_body_absent _ _ _ _ _ _ _ Hfind Hfalse), Hopt.
      unfold tbind, Ok. rewrite Hv. reflexivity. }
    rewrite (validate_app _ _ _ _ _ _ _ Hpre), Hturn in Hrun. simpl in Hrun.
    destruct r3 as [[k3 | error status] | e]; try discriminate Hrun.
    cbn in Hrun. injection Hrun as _ <-.
    exists k3. split; [reflexivity |].
    rewrite (validate_other_keys _ _ _ _ _ _ _ Hv Hpost).
    apply lookup_insert_eq.
  - rewrite validate_app_gen, Hpre in Hrun. discriminate Hrun.
  - rewrite validate_app_gen, Hpre in Hrun. discriminate Hrun.
Qed.

(** ** Where a parameter is read from *)

(** C4.  A validator with neither method allowed reads from exactly one
    place, the body when the request method is [POST] or [PUT] and the
    query otherwise; both places are read only when the validator allows
    both itself. *)
Theorem default_method_rule (request_method : string) (validator : ParamValidator) :
  (allow_GET validator = false -> allow_POST validator = false ->
   allowed_methods (default_method request_method) validator
   = if String.eqb request_method "POST" || String.eqb request_method "PUT"
     then (false, true) else (true, false))
  /\ (allowed_methods (default_method request_method) validator = (true, true) ->
      allow_GET validator = true /\ allow_POST validator = true).
Proof.
  unfold allowed_methods, default_method. split.
  - intros -> ->. simpl.
    destruct (String.eqb request_method "POST" || String.eqb request_method "PUT");
      reflexivity.
  - destruct (allow_GET validator), (allow_POST validator); simpl; intros H;
      auto; try discriminate H.
    destruct (String.eqb request_method "POST" || String.eqb request_method "PUT");
      discriminate H.
Qed.

(** A value that is found was read from the place [param_type] names, so
    the variable is assigned whenever it is read. *)
Lemma find_param_assigned request name allow_GET allow_POST param param_type :
  find_param request name allow_GET allow_POST = Ok (param, param_type) ->
  py_truthy param = true ->
  (param_type = Some "POST" /\ allow_POST = true
   /\ dict_get (DATA request) name = Ok param)
  \/ (param_type = Some "GET" /\ allow_GET = true
      /\ dict_get (GET request) name = Ok param).
Proof.
  unfold find_param. intros H Htrue.
  destruct allow_POST; simpl in H.
  - destruct (dict_get (DATA request) name) as [p | e] eqn:Hpost; [| discriminate H].
    simpl in H. destruct (py_truthy p) eqn:Hp; simpl in H.
    + injection H as <- <-. left. auto.
    + destruct allow_GET; simpl in H.
      * destruct (dict_get (GET request) name) as [g | e]; [| discriminate H].
        injection H as <- <-. right. auto.
      * injection H as <- <-. congruence.
  - destruct allow_GET; simpl in H.
    + destruct (dict_get (GET request) name) as [g | e]; [| discriminate H].
      injection H as <- <-. right. auto.
    + injection H as <- <-. discriminate Htrue.
Qed.


(** ** Parameters with many values *)

(** X24.  For a validator with [many] set and a value that was found, the
    raw elements are the comma-separated pieces of [str(param)] when the
    value was read from the query, and, when it was read from the body, the
    value itself if it is a list and the one-element sequence of it
    otherwise.  When every element passes, [check_type] was called on each
    raw element in order, then [check_value] on each coerced element in
    order, and [arg_name] is bound to the list of the coerced elements.
    When [str(param)] raises, as it does for a [unicode] that is not ASCII,
    there are no elements: no call of [check_type] or [check_value] is made
    and the exception is the one the [except] clause reports. *)
Theorem many_values (request : Request) (dpm arg_name : string)
    (validator : ParamValidator) (kwargs : gmap string pyobj)
    (param : pyval) (param_type : option string) :
  many validator = true ->
  find_param request (param_name validator)
    (allowed_methods dpm validator).1 (allowed_methods dpm validator).2
    = Ok (param, param_type) ->
  py_truthy param = true ->
  exists raw : result (list pyval),
    ((param_type = Some "GET"
      /\ dict_get (GET request) (param_name validator) = Ok param
      /\ raw = (do s <- py_str rp (OVal param); Ok (map VStr (Text.split "," s))))
     \/ (param_type = Some "POST"
         /\ dict_get (DATA request) (param_name validator) = Ok param
         /\ raw = Ok match param with VList l => l | _ => [param] end))
    /\ (forall elements coerced units,
           raw = Ok elements ->
           map_result (check_type fl rp validator) elements = Ok coerced ->
           map_result (check_value rp validator) coerced = Ok units ->
           loop_body fl rp request dpm arg_name validator kwargs
           = ((EvParam arg_name
                 :: map (EvCheckType arg_name) elements
                 ++ map (EvCheckValue arg_name) coerced)%list,
              Ok (Next (<[arg_name := OVal (VList coerced)]> kwargs))))
    /\ (forall e,
           raw = inr e ->
           loop_body fl rp request dpm arg_name validator kwargs
           = ([EvParam arg_name],
              do body <- error_body rp (param_name validator) e;
              Ok (Return body HTTP_400_BAD_REQUEST))).
Proof.
  intros Hmany Hfind Htrue.
  exists (many_params rp param param_type). split; [| split].
  - destruct (find_param_assigned _ _ _ _ _ _ Hfind Htrue)
      as [(-> & _ & Hsrc) | (-> & _ & Hsrc)]; [right | left]; auto.
  - intros elements coerced units Hraw Htype Hvalue.
    assert (Htry : try_block fl rp arg_name validator param param_type kwargs
                   = ((map (EvCheckType arg_name) elements
                         ++ map (EvCheckValue arg_name) coerced)%list,
                      Ok (Checked (VList coerced)))).
    { unfold try_block. rewrite Htrue, Hmany, Hraw. simpl negb. cbv iota.
      unfold lift, Ok. unfold tbind at 1. cbv beta iota.
      rewrite (map_traced_ok _ _ _ _ Htype). unfold tbind at 1, Ok. cbv beta iota.
      rewrite (map_traced_ok _ _ _ _ Hvalue). cbn.
      rewrite app_nil_r. reflexivity. }
    rewrite (loop_body_found _ _ _ _ _ _ _ Hfind), Htry. reflexivity.
  - intros e Hraw.
    assert (Htry : try_block fl rp arg_name validator param param_type kwargs
                   = ([], inr e)).
    { unfold try_block. rewrite Htrue, Hmany, Hraw. reflexivity. }
    rewrite (loop_body_found _ _ _ _ _ _ _ Hfind), Htry. reflexivity.
Qed.

(** ** Bounds *)

(** [check_value] does nothing for a validator whose type is not [int],
    [float] or [str]. *)
Lemma check_value_noop (validator : ParamValidator) (param : pyval) :
  is_type (param_type validator) TInt = false ->
  is_type (param_type validator) TFloat = false ->
  is_type (param_type validator) TStr = false ->
  check_value rp validator param = Ok tt.
Proof. intros H1 H2 H3. unfold check_value. rewrite H1, H2, H3. reflexivity. Qed.

(** The value [check_value] compares: the parameter itself for [int] and
    [float], its length for [str]. *)
Lemma check_value_number (validator : ParamValidator) (n : number) :
  is_type (param_type validator) TInt || is_type (param_type validator) TFloat = true ->
  check_value rp validator (VNum n)
  = if num_truthy n
    then match check_bounds rp validator (VNum n) with
         | inl _ => Ok tt
         | inr e => do msg <- str_exn e; Throw "Exception" ("Value " ++ msg)
         end
    else Ok tt.
Proof.
  intros H. unfold check_value. rewrite H. simpl.
  assert (Hstr : is_type (param_type validator) TStr = false).
  { destruct (param_type validator) as [[] | | |]; simpl in *; congruence. }
  rewrite Hstr. reflexivity.
Qed.

Lemma check_value_text (validator : ParamValidator) (s : string) :
  is_type (param_type validator) TStr = true ->
  check_value rp validator (VStr s)
  = if negb (Z.of_nat (String.length s) =? 0)
    then match check_bounds rp validator (VInt (Z.of_nat (String.length s))) with
         | inl _ => Ok tt
         | inr e => do msg <- str_exn e; Throw "Exception" ("Length " ++ msg)
         end
    else Ok tt.
Proof.
  intros H. unfold check_value.
  assert (Hnum : is_type (param_type validator) TInt
                 || is_type (param_type validator) TFloat = false).
  { destruct (param_type validator) as [[] | | |]; simpl in *; congruence. }
  rewrite Hnum, H. reflexivity.
Qed.

(** A bound that is not zero is enforced on a value that is not zero:
    with only [gt] set, the values up to the bound are refused and the
    values above it pass. *)
Lemma check_bounds_gt (validator : ParamValidator) (val : pyval) (g : number) :
  eq validator = None -> lt validator = None -> lte validator = None ->
  gte validator = None -> gt validator = Some g -> num_truthy g = true ->
  check_bounds rp validator val
  = if val_le val g
    then Throw "Exception" ("must be greater than " ++ num_str rp g ++ "!")
    else Ok tt.
Proof.
  intros He Hl Hle Hge Hg Hnz. unfold check_bounds.
  rewrite He, Hl, Hle, Hge, Hg. simpl. rewrite Hnz. simpl.
  destruct (val_le val g); reflexivity.
Qed.

(** The order of the tests, for bounds that are not zero: a value that
    differs from [eq] is refused whatever the other bounds are; otherwise
    the first of [lt], [lte], [gt], [gte] that the value breaks is the one
    reported. *)
Lemma check_bounds_eq_first (validator : ParamValidator) (val : pyval) (e : number) :
  eq validator = Some e -> num_truthy e = true -> val_ne val e = true ->
  check_bounds rp validator val
  = Throw "Exception" ("must be less than " ++ num_str rp e ++ "!").
Proof.
  intros He Hnz Hne. unfold check_bounds. rewrite He. simpl. rewrite Hnz, Hne. reflexivity.
Qed.

Lemma check_bounds_lt_first (validator : ParamValidator) (val : pyval) (b : number) :
  bound_and (eq validator) val_ne val = false ->
  lt validator = Some b -> num_truthy b = true -> val_ge val b = true ->
  check_bounds rp validator val
  = Throw "Exception" ("must be less than " ++ num_str rp b ++ "!").
Proof.
  intros He Hb Hnz Hv. unfold check_bounds. rewrite He, Hb. simpl. rewrite Hnz, Hv.
  reflexivity.
Qed.

Lemma check_bounds_lte_first (validator : ParamValidator) (val : pyval) (b : number) :
  bound_and (eq validator) val_ne val = false ->
  bound_and (lt validator) val_ge val = false ->
  lte validator = Some b -> num_truthy b = true -> val_gt val b = true ->
  check_bounds rp validator val
  = Throw "Exception"
      ("must be less than or equal to " ++ num_str rp b ++ "!").
Proof.
  intros He Hl Hb Hnz Hv. unfold check_bounds. rewrite He, Hl, Hb. simpl.
  rewrite Hnz, Hv. reflexivity.
Qed.

Lemma check_bounds_gt_first (validator : ParamValidator) (val : pyval) (b : number) :
  bound_and (eq validator) val_ne val = false ->
  bound_and (lt validator) val_ge val = false ->
  bound_and (lte validator) val_gt val = false ->
  gt validator = Some b -> num_truthy b = true -> val_le val b = true ->
  check_bounds rp validator val
  = Throw "Exception" ("must be greater than " ++ num_str rp b ++ "!").
Proof.
  intros He Hl Hle Hb Hnz Hv. unfold check_bounds. rewrite He, Hl, Hle, Hb. simpl.
  rewrite Hnz, Hv. reflexivity.
Qed.

Lemma check_bounds_gte_first (validator : ParamValidator) (val : pyval) (b : number) :
  bound_and (eq validator) val_ne val = false ->
  bound_and (lt validator) val_ge val = false ->
  bound_and (lte validator) val_gt val = false ->
  bound_and (gt validator) val_le val = false ->
  gte validator = Some b -> num_truthy b = true -> val_lt val b = true ->
  check_bounds rp validator val
  = Throw "Exception"
      ("must be greater than or equal to " ++ num_str rp b ++ "!").
Proof.
  intros He Hl Hle Hg Hb Hnz Hv. unfold check_bounds. rewrite He, Hl, Hle, Hg, Hb.
  simpl. rewrite Hnz, Hv. reflexivity.
Qed.

(** C2, at the input where the code departs from it.  With
    [@params(my_int=int, my_int__gt=10)] and the query [my_int=0], the
    value 0 is not greater than 10, yet [check_value] raises nothing and
    the handler is called with [my_int = 0]: the test [if val:] takes the
    value zero for no value. *)
Theorem gt_bound_accepts_zero {R : Type}
    (fn : pyarg -> list pyarg -> gmap string pyobj -> R) :
  num_le (NInt 0) (NInt 10) = true
  /\ exists validators,
      params rp gt_config = Ok validators
      /\ wrapped_request_fn fl rp validators fn
           (IsRequest (get_request [("my_int", VStr "0")])) [] ∅
         = ([EvParam "my_int"; EvCheckType "my_int" (VStr "0");
             EvCheckValue "my_int" (VInt 0); EvHandler],
            Ok (Returned (fn (IsRequest (get_request [("my_int", VStr "0")])) []
                            (<["my_int" := OVal (VInt 0)]> ∅)))).
Proof.
  split; [reflexivity |].
  eexists. split; reflexivity.
Qed.

(** C3, at the input where the code departs from it.  With
    [@params(my_int=int, my_int__eq=4)] and the query [my_int=0], [eq] is
    set and the value differs from it, yet nothing is raised and the
    handler is called with [my_int = 0]. *)
Theorem eq_bound_accepts_zero {R : Type}
    (fn : pyarg -> list pyarg -> gmap string pyobj -> R) :
  val_ne (VInt 0) (NInt 4) = true
  /\ exists validators,
      params rp eq_config = Ok validators
      /\ wrapped_request_fn fl rp validators fn
           (IsRequest (get_request [("my_int", VStr "0")])) [] ∅
         = ([EvParam "my_int"; EvCheckType "my_int" (VStr "0");
             EvCheckValue "my_int" (VInt 0); EvHandler],
            Ok (Returned (fn (IsRequest (get_request [("my_int", VStr "0")])) []
                            (<["my_int" := OVal (VInt 0)]> ∅)))).
Proof.
  split; [reflexivity |].
  eexists. split; reflexivity.
Qed.

(** ** The type of a parameter *)

Lemma get_put_validator key obj validators :
  get_validator key (put_validator key obj validators) = Some obj.
Proof.
  induction validators as [| [k old] rest IH]; simpl.
  - rewrite String.eqb_refl. reflexivity.
  - destruct (String.eqb k key) eqn:Hk; simpl; rewrite Hk; [reflexivity | exact IH].
Qed.

Lemma in_VALID_TYPES_spec (v : pyobj) :
  in_VALID_TYPES v = true <-> v = OType TInt \/ v = OType TFloat \/ v = OType TStr.
Proof.
  split.
  - destruct v as [[] | | |]; simpl; intros H; try discriminate H; auto.
  - intros [-> | [-> | ->]]; reflexivity.
Qed.

(** A key without modifier: the value becomes the type when it is a model
    class, a tuple, set, frozenset or list, or one of [int], [float] and
    [str]; any other value makes [params] raise. *)
Lemma configure_type_accepted validators k v :
  Text.split "__" k = [k] ->
  has_default_manager v = true \/ isinstance_TUPLE_TYPES v = true
  \/ in_VALID_TYPES v = true ->
  exists validators' obj,
    configure rp validators k v = Ok validators'
    /\ get_validator k validators' = Some obj
    /\ param_type obj = v.
Proof.
  intros Hparts Hv. unfold configure. rewrite Hparts. simpl.
  assert (Hset : forall obj, set_type rp k v obj = Ok (set_param_type v obj)).
  { intros obj. unfold set_type.
    destruct Hv as [-> | [-> | ->]]; simpl; rewrite ?andb_false_r; reflexivity. }
  destruct (get_validator k validators) as [obj |]; rewrite Hset; simpl;
    eexists _, _; (split; [reflexivity |]); rewrite get_put_validator; split; reflexivity.
Qed.

Lemma configure_type_refused validators k v :
  Text.split "__" k = [k] ->
  has_default_manager v = false -> isinstance_TUPLE_TYPES v = false ->
  in_VALID_TYPES v = false ->
  configure rp validators k v
  = raise_format "Exception"
      [Bytes "Invalid type for "; Bytes k; Bytes ": "; py_text rp v;
       Bytes " is not a valid type"].
Proof.
  intros Hparts H1 H2 H3. unfold configure. rewrite Hparts. simpl.
  unfold set_type. rewrite H1, H2, H3. simpl.
  unfold raise_format.
  destruct (get_validator k validators); destruct (format _); reflexivity.
Qed.

(** C8, at the input where the code departs from it.  [@params(flag=bool)]
    raises at decoration time, because [bool] is not in [VALID_TYPES];
    yet [check_type] has a branch for a validator whose type is [bool]. *)
Theorem bool_type_refused :
  params rp bool_config
  = Throw "Exception"
      ("Invalid type for flag: " ++ rp (OType TBool) ++ " is not a valid type")
  /\ forall v : pyval,
      check_type fl rp (set_param_type (OType TBool) (ParamValidator_init "flag")) v
      = Ok (VBool (py_truthy v)).
Proof. split; [reflexivity | intros v; reflexivity]. Qed.

(** ** Coercion twice *)

Lemma py_int_idempotent (v c : pyval) :
  py_int rp v = Ok c -> py_int rp c = Ok c.
Proof.
  unfold py_int. intros H.
  destruct v as [| [b | z | f] | s | u | l | cls r]; try discriminate H.
  - injection H as <-. reflexivity.
  - injection H as <-. reflexivity.
  - destruct (exact_of_float f); try discriminate H. injection H as <-. reflexivity.
  - unfold int_of_bytes in H.
    destruct (Text.int_literal s); try discriminate H. injection H as <-. reflexivity.
  - destruct (encode_decimal u) as [s | e]; [| discriminate H]. unfold int_of_bytes in H.
    simpl in H.
    destruct (Text.int_literal s); try discriminate H. injection H as <-. reflexivity.
Qed.

Lemma py_float_idempotent (v c : pyval) :
  py_float fl v = Ok c -> py_float fl c = Ok c.
Proof.
  unfold py_float. intros H.
  destruct v as [| [b | z | f] | s | u | l | cls r]; try discriminate H.
  - injection H as <-. reflexivity.
  - destruct (float_of_Z z); try discriminate H; injection H as <-; reflexivity.
  - injection H as <-. reflexivity.
  - unfold float_of_bytes in H.
    destruct (fl s); try discriminate H. injection H as <-. reflexivity.
  - destruct (encode_decimal u) as [s | e]; [| discriminate H]. unfold float_of_bytes in H.
    simpl in H.
    destruct (fl s); try discriminate H. injection H as <-. reflexivity.
Qed.

(** C9, as amended.  For a validator whose type is not a model class, a
    value that [check_type] accepts is coerced to a value that
    [check_type] accepts again and returns unchanged. *)
Theorem check_type_idempotent (validator : ParamValidator) (param coerced : pyval) :
  has_default_manager (param_type validator) = false ->
  check_type fl rp validator param = Ok coerced ->
  check_type fl rp validator coerced = Ok coerced.
Proof.
  unfold check_type. intros Hmodel H.
  destruct (as_tuple_type (param_type validator)) as [items |].
  - destruct (py_in param (param_type validator) items) as [found | e] eqn:Hin;
      [| discriminate H].
    simpl in H.
    destruct found; [| unfold raise_format in H; destruct (format _); discriminate H].
    injection H as <-. rewrite Hin. reflexivity.
  - destruct (is_type (param_type validator) TInt); [exact (py_int_idempotent _ _ H) |].
    destruct (is_type (param_type validator) TFloat); [exact (py_float_idempotent _ _ H) |].
    destruct (is_type (param_type validator) TStr).
    { destruct (is_text param) eqn:Ht; [| discriminate H].
      unfold py_unicode in H.
      destruct (unicode_of_text (py_text rp (OVal param))) as [u | e]; [| discriminate H].
      injection H as <-. reflexivity. }
    destruct (is_type (param_type validator) TBool).
    { injection H as <-. reflexivity. }
    destruct (param_type validator); try discriminate H. discriminate Hmodel.
Qed.

(** ** Validators without a method *)

Lemma get_put_validator_other key key' obj validators :
  String.eqb key key' = false ->
  get_validator key' (put_validator key obj validators) = get_validator key' validators.
Proof.
  intros Hne. induction validators as [| [k old] rest IH]; simpl.
  - rewrite Hne. reflexivity.
  - destruct (String.eqb k key) eqn:Hk; simpl.
    + apply String.eqb_eq in Hk. subst k. rewrite Hne. reflexivity.
    + rewrite IH. reflexivity.
Qed.

Lemma set_type_methods k v obj obj' :
  set_type rp k v obj = Ok obj' ->
  allow_GET obj' = allow_GET obj /\ allow_POST obj' = allow_POST obj.
Proof.
  unfold set_type. intros H.
  destruct (negb (has_default_manager v)
            && (negb (isinstance_TUPLE_TYPES v) && negb (in_VALID_TYPES v)));
    [destruct (raise_format_raises _ _ _ H) |].
  injection H as <-. split; reflexivity.
Qed.

Lemma apply_modifier_methods k last_part v obj obj' :
  String.eqb last_part "method" = false ->
  apply_modifier rp k last_part v obj = Ok obj' ->
  allow_GET obj' = allow_GET obj /\ allow_POST obj' = allow_POST obj.
Proof.
  unfold apply_modifier. intros Hlast H. rewrite Hlast in H.
  destruct (String.eqb last_part "name").
  { injection H as <-. split; reflexivity. }
  destruct (str_in last_part BOOL_PARTS).
  { destruct v as [| | | [| [b | |] | | | |]]; try discriminate H.
    injection H as <-. unfold set_bool_part.
    destruct (String.eqb last_part "deferred"); [split; reflexivity |].
    destruct (String.eqb last_part "optional"); split; reflexivity. }
  destruct (str_in last_part NUM_PARTS).
  { destruct v as [| | | [| n | | | |]]; try discriminate H.
    injection H as <-. unfold set_num_part.
    destruct (String.eqb last_part "gt"); [split; reflexivity |].
    destruct (String.eqb last_part "gte"); [split; reflexivity |].
    destruct (String.eqb last_part "lt"); [split; reflexivity |].
    destruct (String.eqb last_part "lte"); split; reflexivity. }
  destruct (String.eqb last_part "default").
  { injection H as <-. split; reflexivity. }
  destruct (String.eqb last_part "field"); [| discriminate H].
  injection H as <-. split; reflexivity.
Qed.

(** One keyword that sets no method for [arg_name] leaves the methods of
    the validator of [arg_name] as they were, [False] for a new one. *)
Lemma configure_methods arg_name validators k v validators' :
  (forall obj, get_validator arg_name validators = Some obj ->
               allow_GET obj = false /\ allow_POST obj = false) ->
  declares_method arg_name k = false ->
  configure rp validators k v = Ok validators' ->
  forall obj, get_validator arg_name validators' = Some obj ->
              allow_GET obj = false /\ allow_POST obj = false.
Proof.
  intros Hinv Hdecl Hconf obj' Hget.
  unfold configure in Hconf. unfold declares_method in Hdecl.
  set (parts := Text.split "__" k) in *.
  set (param_key := hd EmptyString parts) in *.
  destruct (String.eqb param_key arg_name) eqn:Hkey.
  - apply String.eqb_eq in Hkey. simpl in Hdecl.
    assert (Hstep : forall obj0 vs0,
               allow_GET obj0 = false /\ allow_POST obj0 = false ->
               (do obj <- (if (List.length parts =? 1)%nat
                           then set_type rp k v obj0
                           else apply_modifier rp k (List.last parts EmptyString) v obj0);
                Ok (put_validator param_key obj vs0)) = Ok validators' ->
               allow_GET obj' = false /\ allow_POST obj' = false).
    { intros obj0 vs0 [HG HP] Hdo.
      destruct (List.length parts =? 1)%nat; simpl in Hdecl.
      - destruct (set_type rp k v obj0) as [o |] eqn:Hset; [| discriminate Hdo].
        simpl in Hdo. injection Hdo as <-.
        rewrite Hkey, get_put_validator in Hget. injection Hget as <-.
        destruct (set_type_methods _ _ _ _ Hset) as [-> ->]. auto.
      - destruct (apply_modifier rp k (List.last parts EmptyString) v obj0) as [o |] eqn:Hmod;
          [| discriminate Hdo].
        simpl in Hdo. injection Hdo as <-.
        rewrite Hkey, get_put_validator in Hget. injection Hget as <-.
        destruct (apply_modifier_methods _ _ _ _ _ Hdecl Hmod) as [-> ->]. auto. }
    destruct (get_validator param_key validators) as [obj0 |] eqn:Hold.
    + eapply Hstep; [| exact Hconf]. apply Hinv. rewrite <- Hkey. exact Hold.
    + eapply Hstep; [| exact Hconf]. split; reflexivity.
  - assert (Hother : forall obj0 vs0,
               get_validator arg_name vs0 = get_validator arg_name validators ->
               (do obj <- (if (List.length parts =? 1)%nat
                           then set_type rp k v obj0
                           else apply_modifier rp k (List.last parts EmptyString) v obj0);
                Ok (put_validator param_key obj vs0)) = Ok validators' ->
               allow_GET obj' = false /\ allow_POST obj' = false).
    { intros obj0 vs0 Hsame Hdo.
      destruct (if (List.length parts =? 1)%nat
                then set_type rp k v obj0
                else apply_modifier rp k (List.last parts EmptyString) v obj0)
        as [o |]; [| discriminate Hdo].
      simpl in Hdo. injection Hdo as <-.
      rewrite (get_put_validator_other _ _ _ _ Hkey), Hsame in Hget.
      apply Hinv. exact Hget. }
    destruct (get_validator param_key validators) as [obj0 |].
    + eapply Hother; [| exact Hconf]. reflexivity.
    + eapply Hother; [| exact Hconf]. apply get_put_validator_other. exact Hkey.
Qed.

Lemma configure_all_methods arg_name kwargs validators validators' :
  (forall obj, get_validator arg_name validators = Some obj ->
               allow_GET obj = false /\ allow_POST obj = false) ->
  forallb (fun kv => negb (declares_method arg_name kv.1)) kwargs = true ->
  configure_all rp validators kwargs = Ok validators' ->
  forall obj, get_validator arg_name validators' = Some obj ->
              allow_GET obj = false /\ allow_POST obj = false.
Proof.
  revert validators. induction kwargs as [| [k v] rest IH]; intros validators Hinv Hno Hconf.
  - simpl in Hconf. injection Hconf as <-. exact Hinv.
  - simpl in Hno, Hconf. apply andb_true_iff in Hno as [Hk Hrest].
    apply negb_true_iff in Hk.
    destruct (configure rp validators k v) as [vs1 |] eqn:Hstep; [| discriminate Hconf].
    simpl in Hconf. eapply IH; [| exact Hrest | exact Hconf].
    eapply configure_methods; eassumption.
Qed.

(** X20.  A parameter for which the decorator got no [method] keyword has a
    validator with neither method allowed. *)
Lemma params_no_method arg_name kwargs validators obj :
  params rp kwargs = Ok validators ->
  forallb (fun kv => negb (declares_method arg_name kv.1)) kwargs = true ->
  get_validator arg_name validators = Some obj ->
  allow_GET obj = false /\ allow_POST obj = false.
Proof.
  intros Hparams Hno Hget. unfold params in Hparams.
  eapply configure_all_methods; [| exact Hno | exact Hparams | exact Hget].
  intros o Ho. discriminate Ho.
Qed.

End Properties.

(** * The properties at the inputs of the test suite *)

Example params_three :
  params sample_repr
    [("my_int", OType TInt); ("color", OColl CTuple [VStr "red"; VStr "green"]);
     ("my_str", OType TStr)]
  = Ok [("my_int", int_validator); ("color", color_validator); ("my_str", str_validator)].
Proof. reflexivity. Qed.

(** C1, at the input where the code departs from it.  With
    [@params(color=('red', 'green'))] and the query [color=Café], a
    [unicode] as Django reads it, [check_type] refuses the value with a
    message that holds it.  The [except] clause then evaluates [str(e)],
    which raises [UnicodeEncodeError], and the clause is outside the [try]:
    the decorated function raises and returns no response, where the
    specification has the response with status 400. *)
Theorem unicode_refusal_not_caught {R : Type}
    (fn : pyarg -> list pyarg -> gmap string pyobj -> R) :
  params sample_repr [("color", OColl CTuple [VStr "red"; VStr "green"])]
  = Ok [("color", color_validator)]
  /\ check_type sample_float_of_text sample_repr color_validator (VUnicode cafe)
     = inr cafe_refused
  /\ str_exn cafe_refused
     = Throw "UnicodeEncodeError"
         "'ascii' codec can't encode character u'\xe9' in position 19: ordinal not in range(128)"
  /\ wrapped_request_fn sample_float_of_text sample_repr [("color", color_validator)] fn
       (IsRequest (get_request [("color", VUnicode cafe)])) [] ∅
     = ([EvParam "color"; EvCheckType "color" (VUnicode cafe)],
        Throw "UnicodeEncodeError"
          "'ascii' codec can't encode character u'\xe9' in position 19: ordinal not in range(128)").
Proof. repeat split; reflexivity. Qed.

(** X23 at a request with a good [my_int], the colour orange and a good
    [my_str]: the response names [color], and [my_str] is not looked at. *)
Lemma invalid_param_rejected_witness :
  wrapped_request_fn sample_float_of_text sample_repr
    [("my_int", int_validator); ("color", color_validator); ("my_str", str_validator)]
    (fun _ _ kwargs => kwargs)
    (IsRequest (get_request [("my_int", VStr "100"); ("color", VStr "orange");
                             ("my_str", VStr "a str")])) [] ∅
  = ([EvParam "my_int"; EvCheckType "my_int" (VStr "100"); EvCheckValue "my_int" (VInt 100);
      EvParam "color"; EvCheckType "color" (VStr "orange")],
     Ok (Response
           (Bytes ("Invalid param " ++ dquote ++ "color" ++ dquote ++ ": invalid option "
                     ++ dquote ++ "orange" ++ dquote ++ ": Must be one of: <tuple>"))
           400)).
Proof.
  exact (proj1 (invalid_param_rejected sample_float_of_text sample_repr
                  (fun _ _ kwargs => kwargs)
                  (IsRequest (get_request [("my_int", VStr "100"); ("color", VStr "orange");
                                           ("my_str", VStr "a str")])) [] ∅
                  (get_request [("my_int", VStr "100"); ("color", VStr "orange");
                                ("my_str", VStr "a str")])
                  [("my_int", int_validator)] [("my_str", str_validator)]
                  "color" color_validator
                  [EvParam "my_int"; EvCheckType "my_int" (VStr "100");
                   EvCheckValue "my_int" (VInt 100)]
                  [EvCheckType "color" (VStr "orange")]
                  (<["my_int" := OVal (VInt 100)]> ∅)
                  (VStr "orange") (Some "GET") orange_refused "color"
                  eq_refl eq_refl eq_refl eq_refl eq_refl)).
Defined.


(** C10 at a request without [user_ids]: the handler gets [None], not a
    list. *)
Lemma many_default_not_wrapped_witness :
  exists kwargs' : gmap string pyobj,
    <["my_str" := OVal VNone]>
      (<["user_ids" := OVal VNone]> (<["my_int" := OVal (VInt 100)]> ∅)) = kwargs'
    /\ kwargs' !! "user_ids" = Some (OVal VNone).
Proof.
  apply (many_default_not_wrapped sample_float_of_text sample_repr
           (fun _ _ kwargs => kwargs)
           (IsRequest (get_request [("my_int", VStr "100")])) [] ∅
           (get_request [("my_int", VStr "100")])
           [("my_int", int_validator)] [("my_str", set_optional true str_validator)]
           "user_ids" many_optional_validator VNone (Some "GET")
           [EvParam "my_int"; EvCheckType "my_int" (VStr "100");
            EvCheckValue "my_int" (VInt 100); EvParam "user_ids"; EvParam "my_str";
            EvHandler]);
    try reflexivity.
  apply (bool_decide_unpack _). vm_compute. exact I.
Defined.

(** C6, at the input where the code departs from it.  With
    [@params(tags=str, tags__many=True)] and the query [tags=Café,the], a
    [unicode] as Django reads it, [str(param)] raises before anything is
    split: no call of [check_type] is made and the request is answered with
    the 400 response of the codec's error, where the specification has the
    value split on its comma and the two pieces bound.  The two pieces pass
    [check_type] for this validator, as the whole text does for a [str]
    parameter that is not [many]. *)
Theorem many_unicode_not_split {R : Type}
    (fn : pyarg -> list pyarg -> gmap string pyobj -> R) :
  params sample_repr [("tags", OType TStr); ("tags__many", OVal (VBool true))]
  = Ok [("tags", many_str_validator)]
  /\ many_params sample_repr (VUnicode cafe_the) (Some "GET")
     = Throw "UnicodeEncodeError"
         "'ascii' codec can't encode character u'\xe9' in position 3: ordinal not in range(128)"
  /\ wrapped_request_fn sample_float_of_text sample_repr [("tags", many_str_validator)] fn
       (IsRequest (get_request [("tags", VUnicode cafe_the)])) [] ∅
     = ([EvParam "tags"],
        Ok (Response
              (Bytes ("Invalid param " ++ dquote ++ "tags" ++ dquote
                        ++ ": 'ascii' codec can't encode character u'\xe9' in position 3: ordinal not in range(128)"))
              400))
  /\ map_result (check_type sample_float_of_text sample_repr many_str_validator)
       [VUnicode cafe; VUnicode (codes "the")]
     = Ok [VUnicode cafe; VUnicode (codes "the")]
  /\ check_type sample_float_of_text sample_repr
       (set_param_type (OType TStr) (ParamValidator_init "tags")) (VUnicode cafe_the)
     = Ok (VUnicode cafe_the).
Proof. repeat split; reflexivity. Qed.

(** X24 at [test_many]: the query [user_ids=98,99,100] becomes the list of
    the three integers. *)
Lemma many_values_witness :
  loop_body sample_float_of_text sample_repr
    (get_request [("user_ids", VStr "98,99,100")]) "GET" "user_ids" many_validator ∅
  = ([EvParam "user_ids";
      EvCheckType "user_ids" (VStr "98"); EvCheckType "user_ids" (VStr "99");
      EvCheckType "user_ids" (VStr "100");
      EvCheckValue "user_ids" (VInt 98); EvCheckValue "user_ids" (VInt 99);
      EvCheckValue "user_ids" (VInt 100)],
     Ok (Next (<["user_ids" := OVal (VList [VInt 98; VInt 99; VInt 100])]> ∅))).
Proof.
  destruct (many_values sample_float_of_text sample_repr
              (get_request [("user_ids", VStr "98,99,100")]) "GET" "user_ids"
              many_validator ∅ (VStr "98,99,100") (Some "GET")
              eq_refl eq_refl eq_refl) as [raw [Hraw [Hrun _]]].
  destruct Hraw as [(_ & _ & ->) | (Hpost & _)]; [| discriminate Hpost].
  exact (Hrun [VStr "98"; VStr "99"; VStr "100"] [VInt 98; VInt 99; VInt 100] [tt; tt; tt]
           eq_refl eq_refl eq_refl).
Defined.

(** C9, as amended, at the text [12] for an [int] parameter. *)
Lemma check_type_idempotent_witness :
  check_type sample_float_of_text sample_repr int_validator (VInt 12) = Ok (VInt 12).
Proof.
  exact (check_type_idempotent sample_float_of_text sample_repr int_validator
           (VStr "12") (VInt 12) eq_refl eq_refl).
Defined.

(** C9 as it is stated fails for a model: the record that [check_type]
    finds for the id [1] is not accepted when it is given in turn, because
    the store reads an id with [int]. *)
Lemma lookup_not_idempotent :
  check_type sample_float_of_text sample_repr user_validator (VStr "1")
  = Ok (VObj "_MockUser" 1)
  /\ check_type sample_float_of_text sample_repr user_validator (VObj "_MockUser" 1)
     = Throw "TypeError"
         ("int() argument must be a string or a number, not "
            ++ squote ++ "_MockUser" ++ squote)
  /\ check_type sample_float_of_text sample_repr user_validator (VObj "_MockUser" 1)
     <> Ok (VObj "_MockUser" 1).
Proof.
  split; [reflexivity |]. split; [reflexivity |]. discriminate.
Qed.

(** C4 at a [PUT] request and at a [DELETE] request. *)
Lemma default_method_rule_witness :
  allowed_methods (default_method "PUT") int_validator = (false, true)
  /\ allowed_methods (default_method "DELETE") int_validator = (true, false).
Proof.
  split.
  - exact (proj1 (default_method_rule "PUT" int_validator) eq_refl eq_refl).
  - exact (proj1 (default_method_rule "DELETE" int_validator) eq_refl eq_refl).
Defined.


(** ** The test suite *)

Example test_gt_invalid :
  run_test gt_config (get_request [("my_int", VInt 10)])
  = Some (Ok (Response (invalid_param sample_repr (OVal (VStr "my_int"))
                          (Raise "Exception" "Value must be greater than 10!")) 400)).
Proof. reflexivity. Qed.

Example test_gt_valid :
  run_test gt_config (get_request [("my_int", VInt 11)])
  = Some (Ok (Returned [("my_int", OVal (VInt 11))])).
Proof. reflexivity. Qed.

Example test_str_length_invalid :
  run_test [("my_str", OType TStr); ("my_str__length__lt", OVal (VInt 5));
            ("my_str__length__gte", OVal (VInt 2))]
    (get_request [("my_str", VStr "THIS STRING IS WAY TOO LONG")])
  = Some (Ok (Response (invalid_param sample_repr (OVal (VStr "my_str"))
                          (Raise "Exception" "Length must be less than 5!")) 400)).
Proof. reflexivity. Qed.

Example test_str_length_valid :
  run_test [("my_str", OType TStr); ("my_str__length__lt", OVal (VInt 5));
            ("my_str__length__gte", OVal (VInt 2))]
    (get_request [("my_str", VStr "GOOD")])
  = Some (Ok (Returned [("my_str", OVal (VUnicode (codes "GOOD")))])).
Proof. reflexivity. Qed.

Example test_default :
  run_test [("my_int", OType TInt); ("my_int__default", OVal (VInt 100))] (get_request [])
  = Some (Ok (Returned [("my_int", OVal (VInt 100))])).
Proof. reflexivity. Qed.

Example test_name_other_key :
  run_test [("my_int", OType TInt); ("my_int__name", OVal (VStr "my_int_param"))]
    (get_request [("my_int", VInt 100)])
  = Some (Ok (Response (invalid_param sample_repr (OVal (VStr "my_int_param"))
                          (Raise "Exception" "Param is missing")) 400)).
Proof. reflexivity. Qed.

Example test_many_post_single :
  run_test [("user_ids", OType TInt); ("user_ids__many", OVal (VBool true))]
    (post_request [] [("user_ids", VInt 100)])
  = Some (Ok (Returned [("user_ids", OVal (VList [VInt 100]))])).
Proof. reflexivity. Qed.

Example test_float_accepts_int :
  run_test [("my_float", OType TFloat)] (get_request [("my_float", VInt 100)])
  = Some (Ok (Returned [("my_float", OVal (VFloat (float_of_Z 100)))])).
Proof. reflexivity. Qed.

Example test_gte_zero_bound :
  run_test [("my_int", OType TInt); ("my_int__gte", OVal (VInt 0))]
    (get_request [("my_int", VStr "-5")])
  = Some (Ok (Returned [("my_int", OVal (VInt (-5)))])).
Proof. reflexivity. Qed.

(** * Further properties of the code *)

Section Further.

Context {decimal : DecimalCodec}.
Variable fl : string -> option float.
Variable rp : pyobj -> string.

(** ** The call of the handler *)

(** X2.  The keyword arguments the caller gave under names that are not
    parameters of the decorator reach the handler as they were. *)
Theorem other_kwargs_reach_handler {R : Type}
    (validators : list (string * ParamValidator))
    (fn : pyarg -> list pyarg -> gmap string pyobj -> R)
    (first_arg : pyarg) (args : list pyarg) (kwargs : gmap string pyobj)
    (log : list event) (r : R) :
  wrapped_request_fn fl rp validators fn first_arg args kwargs = (log, Ok (Returned r)) ->
  exists kwargs', r = fn first_arg args kwargs'
                  /\ forall k, k ∉ validators.*1 -> kwargs' !! k = kwargs !! k.
Proof.
  unfold wrapped_request_fn. intros H.
  destruct (match args with [] => first_arg | a :: _ => a end) as [request | o];
    [| discriminate H].
  destruct (validate fl rp request (default_method (REQUEST_METHOD request))
              validators kwargs) as [l1 [[k1 | error status] | e]] eqn:Hv;
    try discriminate H.
  cbn in H. injection H as _ <-.
  exists k1. split; [reflexivity |].
  intros k Hk. eapply validate_other_keys; eassumption.
Qed.

(** X3.  A handler that is a method, called with its receiver before the
    request, is validated as the function called with the request alone:
    the same calls are made, the same response is returned, and the handler
    is called with the same keyword arguments. *)
Theorem receiver_is_not_validated {R R' : Type}
    (validators : list (string * ParamValidator))
    (fn : pyarg -> list pyarg -> gmap string pyobj -> R)
    (fn' : pyarg -> list pyarg -> gmap string pyobj -> R')
    (self : pyarg) (request : Request) (rest : list pyarg)
    (kwargs : gmap string pyobj) :
  (wrapped_request_fn fl rp validators fn self (IsRequest request :: rest) kwargs).1
  = (wrapped_request_fn fl rp validators fn' (IsRequest request) [] kwargs).1
  /\ match (wrapped_request_fn fl rp validators fn self (IsRequest request :: rest) kwargs).2,
           (wrapped_request_fn fl rp validators fn' (IsRequest request) [] kwargs).2 with
     | inl (Response error status), inl (Response error' status') =>
         error = error' /\ status = status'
     | inl (Returned r), inl (Returned r') =>
         exists kwargs', r = fn self (IsRequest request :: rest) kwargs'
                         /\ r' = fn' (IsRequest request) [] kwargs'
     | inr e, inr e' => e = e'
     | _, _ => False
     end.
Proof.
  unfold wrapped_request_fn.
  destruct (validate fl rp request (default_method (REQUEST_METHOD request))
              validators kwargs) as [l1 [[k1 | error status] | e]]; cbn.
  - split; [reflexivity |]. exists k1. split; reflexivity.
  - split; [reflexivity |]. split; reflexivity.
  - split; reflexivity.
Qed.

(** ** Looking a parameter up *)

(** X4.  A value that is found and is true as a truth value was read from the
    place the variable [param_type] names, and that place is allowed; so the
    variable never holds what an earlier turn of the loop left in it when
    the splitting of a [many] parameter reads it. *)
Theorem param_type_names_source (request : Request) (name : pyobj)
    (allow_GET allow_POST : bool) (param : pyval) (param_type : option string) :
  find_param request name allow_GET allow_POST = Ok (param, param_type) ->
  py_truthy param = true ->
  (param_type = Some "POST" /\ allow_POST = true
   /\ dict_get (DATA request) name = Ok param)
  \/ (param_type = Some "GET" /\ allow_GET = true
      /\ dict_get (GET request) name = Ok param).
Proof. exact (find_param_assigned request name allow_GET allow_POST param param_type). Qed.


(** ** One turn of the loop *)

(** The result of a turn from the result of its [try] block. *)
Lemma loop_body_result request dpm arg_name validator kwargs param param_type :
  find_param request (param_name validator)
    (allowed_methods dpm validator).1 (allowed_methods dpm validator).2
    = Ok (param, param_type) ->
  (loop_body fl rp request dpm arg_name validator kwargs).2
  = match (try_block fl rp arg_name validator param param_type kwargs).2 with
    | inr e =>
        match error_body rp (param_name validator) e with
        | inl body => Ok (Return body HTTP_400_BAD_REQUEST)
        | inr e' => inr e'
        end
    | inl (Continued kwargs') => Ok (Next kwargs')
    | inl (Checked value) => Ok (Next (<[arg_name := OVal value]> kwargs))
    end.
Proof. intros Hfind. rewrite (loop_body_found fl rp _ _ _ _ _ _ _ Hfind). reflexivity. Qed.

(** X6.  [optional] and [default] cover absence only: a value that is
    present and that [check_type] refuses with [e] is answered with the 400
    response, for an optional parameter as for a required one.  The name of
    the parameter in the request is the [str] [name] and [str(e)] gives
    [msg]; the error is [Invalid param "<name>": <msg>]. *)
Theorem present_invalid_is_rejected (request : Request) (dpm arg_name : string)
    (validator : ParamValidator) (kwargs : gmap string pyobj)
    (param : pyval) (param_type : option string) (e : exn) (name msg : string) :
  find_param request (param_name validator)
    (allowed_methods dpm validator).1 (allowed_methods dpm validator).2
    = Ok (param, param_type) ->
  py_truthy param = true ->
  many validator = false ->
  check_type fl rp validator param = inr e ->
  param_name validator = OVal (VStr name) ->
  str_exn e = Ok msg ->
  loop_body fl rp request dpm arg_name validator kwargs
  = ([EvParam arg_name; EvCheckType arg_name param],
     Ok (Return (Bytes ("Invalid param " ++ dquote ++ name ++ dquote ++ ": " ++ msg))
           HTTP_400_BAD_REQUEST)).
Proof.
  intros Hfind Htrue Hmany Htype Hname Hmsg.
  rewrite (loop_body_found fl rp _ _ _ _ _ _ _ Hfind).
  unfold try_block. rewrite Htrue, Hmany. unfold tell, lift. cbn.
  rewrite Htype. cbn. rewrite Hname, error_body_str, Hmsg. reflexivity.
Qed.

(** X7.  For a [many] parameter every element is coerced before any element
    is compared with the bounds: when [check_type] refuses an element with
    [e], that exception is the one reported, also when an element before it
    breaks a bound.  The name of the parameter in the request is the [str]
    [name] and [str(e)] gives [msg]. *)
Theorem type_errors_come_first (request : Request) (dpm arg_name : string)
    (validator : ParamValidator) (kwargs : gmap string pyobj)
    (param : pyval) (param_type : option string) (raw : list pyval) (e : exn)
    (name msg : string) :
  find_param request (param_name validator)
    (allowed_methods dpm validator).1 (allowed_methods dpm validator).2
    = Ok (param, param_type) ->
  py_truthy param = true ->
  many validator = true ->
  many_params rp param param_type = Ok raw ->
  map_result (check_type fl rp validator) raw = inr e ->
  param_name validator = OVal (VStr name) ->
  str_exn e = Ok msg ->
  (loop_body fl rp request dpm arg_name validator kwargs).2
  = Ok (Return (Bytes ("Invalid param " ++ dquote ++ name ++ dquote ++ ": " ++ msg))
          HTTP_400_BAD_REQUEST).
Proof.
  intros Hfind Htrue Hmany Hraw Htype Hname Hmsg.
  rewrite (loop_body_result _ _ _ _ _ _ _ Hfind).
  rewrite (try_block_result fl rp). rewrite Htrue, Hmany, Hraw. simpl. rewrite Htype.
  simpl. rewrite Hname, error_body_str, Hmsg. reflexivity.
Qed.

(** ** Coercion *)

(** X9.  The value [check_type] returns has the declared type: an integer
    for [int], a float for [float], a truth value for [bool], and for [str]
    a [unicode]: the text itself when it is one, the decoded bytes, all of
    them ASCII, when it is a [str]. *)
Theorem check_type_result_type (validator : ParamValidator) (param coerced : pyval) :
  check_type fl rp validator param = Ok coerced ->
  (param_type validator = OType TInt -> exists z, coerced = VInt z)
  /\ (param_type validator = OType TFloat -> exists f, coerced = VFloat f)
  /\ (param_type validator = OType TStr ->
      exists u, coerced = VUnicode u
                /\ (param = VUnicode u
                    \/ exists s, param = VStr s /\ u = codes s
                                 /\ forallb is_ascii_byte (list_ascii_of_string s) = true))
  /\ (param_type validator = OType TBool -> coerced = VBool (py_truthy param)).
Proof.
  unfold check_type. intros H.
  split; [| split; [| split]]; intros Hty; rewrite Hty in H; simpl in H.
  - unfold py_int in H.
    destruct param as [| [b | z | f] | s | u | l | cls r]; try discriminate H.
    + injection H as <-. eauto.
    + injection H as <-. eauto.
    + destruct (exact_of_float f); try discriminate H. injection H as <-. eauto.
    + unfold int_of_bytes in H. destruct (Text.int_literal s); try discriminate H.
      injection H as <-. eauto.
    + destruct (encode_decimal u) as [s | e]; [| discriminate H].
      unfold int_of_bytes in H. simpl in H.
      destruct (Text.int_literal s); try discriminate H. injection H as <-. eauto.
  - unfold py_float in H.
    destruct param as [| [b | z | f] | s | u | l | cls r]; try discriminate H.
    + injection H as <-. eauto.
    + destruct (float_of_Z z); try discriminate H; injection H as <-; eauto.
    + injection H as <-. eauto.
    + unfold float_of_bytes in H. destruct (fl s); try discriminate H.
      injection H as <-. eauto.
    + destruct (encode_decimal u) as [s | e]; [| discriminate H].
      unfold float_of_bytes in H. simpl in H.
      destruct (fl s); try discriminate H. injection H as <-. eauto.
  - destruct param as [| n | s | u | l | cls r]; try discriminate H.
    + unfold py_unicode, py_text, unicode_of_text, decode_ascii, ascii_decode in H.
      destruct (forallb is_ascii_byte (list_ascii_of_string s)) eqn:Hascii;
        [| discriminate H].
      injection H as <-. eexists. split; [reflexivity |]. right. eauto.
    + injection H as <-. eauto.
  - injection H as <-. reflexivity.
Qed.

(** X10.  For a parameter declared by a collection of allowed values, an accepted
    value is returned as it came and is equal to one of the values. *)
Theorem enumeration_member (validator : ParamValidator) (items : list pyval)
    (param coerced : pyval) :
  as_tuple_type (param_type validator) = Some items ->
  check_type fl rp validator param = Ok coerced ->
  coerced = param /\ exists item, item ∈ items /\ py_eq param item = true.
Proof.
  unfold check_type. intros Hitems H. rewrite Hitems in H.
  assert (Hfound : existsb (py_eq param) items = true /\ coerced = param).
  { unfold py_in in H.
    destruct (param_type validator) as [t | m | [| |] its | v];
      try (destruct (hashable param); [| discriminate H]);
      simpl in H; destruct (existsb (py_eq param) items);
      try discriminate H; try (destruct (raise_format_raises _ _ _ H));
      injection H as <-; auto. }
  destruct Hfound as [Hex ->]. split; [reflexivity |].
  apply existsb_exists in Hex as (item & Hin & Heq).
  exists item. split; [apply list_elem_of_In; exact Hin | exact Heq].
Qed.

(** ** Bounds *)

Lemma num_compare_int (a b : Z) : num_compare (NInt a) (NInt b) = Some (a ?= b).
Proof.
  unfold num_compare, exact_compare. simpl. rewrite !Z.mul_1_r. reflexivity.
Qed.

(** X11.  An integer that is not zero and that [check_value] accepts for an [int]
    parameter is within every integer bound that is not zero. *)
Theorem accepted_integer_within_bounds (validator : ParamValidator) (z : Z) :
  param_type validator = OType TInt ->
  z <> 0 ->
  check_value rp validator (VInt z) = Ok tt ->
  (forall b, eq validator = Some (NInt b) -> b <> 0 -> z = b)
  /\ (forall b, lt validator = Some (NInt b) -> b <> 0 -> z < b)
  /\ (forall b, lte validator = Some (NInt b) -> b <> 0 -> z <= b)
  /\ (forall b, gt validator = Some (NInt b) -> b <> 0 -> z > b)
  /\ (forall b, gte validator = Some (NInt b) -> b <> 0 -> z >= b).
Proof.
  intros Hty Hz H.
  rewrite check_value_number in H by (rewrite Hty; reflexivity).
  simpl in H. apply Z.eqb_neq in Hz. rewrite Hz in H. simpl in H.
  unfold check_bounds in H.
  destruct (bound_and (eq validator) val_ne (VInt z)) eqn:He; [discriminate H |].
  destruct (bound_and (lt validator) val_ge (VInt z)) eqn:Hl; [discriminate H |].
  destruct (bound_and (lte validator) val_gt (VInt z)) eqn:Hle; [discriminate H |].
  destruct (bound_and (gt validator) val_le (VInt z)) eqn:Hg; [discriminate H |].
  destruct (bound_and (gte validator) val_lt (VInt z)) eqn:Hge; [discriminate H |].
  clear H.
  assert (Hcmp : forall (b : Z) (bound : option number) (op : pyval -> number -> bool),
             bound = Some (NInt b) -> b <> 0 ->
             bound_and bound op (VInt z) = false -> op (VInt z) (NInt b) = false).
  { intros b bound op -> Hnz Hx. simpl in Hx. apply Z.eqb_neq in Hnz.
    rewrite Hnz in Hx. exact Hx. }
  repeat split; intros b Hb Hnz.
  - pose proof (Hcmp _ _ _ Hb Hnz He) as Hx. unfold val_ne, compare_with_number in Hx.
    rewrite num_compare_int in Hx. destruct (Z.compare_spec z b); try discriminate Hx; lia.
  - pose proof (Hcmp _ _ _ Hb Hnz Hl) as Hx. unfold val_ge, compare_with_number in Hx.
    rewrite num_compare_int in Hx. destruct (Z.compare_spec z b); try discriminate Hx; lia.
  - pose proof (Hcmp _ _ _ Hb Hnz Hle) as Hx. unfold val_gt, compare_with_number in Hx.
    rewrite num_compare_int in Hx. destruct (Z.compare_spec z b); try discriminate Hx; lia.
  - pose proof (Hcmp _ _ _ Hb Hnz Hg) as Hx. unfold val_le, compare_with_number in Hx.
    rewrite num_compare_int in Hx. destruct (Z.compare_spec z b); try discriminate Hx; lia.
  - pose proof (Hcmp _ _ _ Hb Hnz Hge) as Hx. unfold val_lt, compare_with_number in Hx.
    rewrite num_compare_int in Hx. destruct (Z.compare_spec z b); try discriminate Hx; lia.
Qed.

(** The same for a [unicode], which is what [check_type] makes of the text
    of a [str] parameter. *)
Lemma check_value_unicode (validator : ParamValidator) (u : list N) :
  is_type (param_type validator) TStr = true ->
  check_value rp validator (VUnicode u)
  = if negb (Z.of_nat (List.length u) =? 0)
    then match check_bounds rp validator (VInt (Z.of_nat (List.length u))) with
         | inl _ => Ok tt
         | inr e => do msg <- str_exn e; Throw "Exception" ("Length " ++ msg)
         end
    else Ok tt.
Proof.
  intros H. unfold check_value.
  assert (Hnum : is_type (param_type validator) TInt
                 || is_type (param_type validator) TFloat = false).
  { destruct (param_type validator) as [[] | | |]; simpl in *; congruence. }
  rewrite Hnum, H. reflexivity.
Qed.

(** X13.  A value that is zero passes [check_value] whatever the bounds are, and
    so does the empty text for a [str] parameter, of either type: the test
    [if val:] takes them for no value. *)
Theorem zero_passes_every_bound (validator : ParamValidator) :
  (forall n, is_type (param_type validator) TInt
             || is_type (param_type validator) TFloat = true ->
             num_truthy n = false ->
             check_value rp validator (VNum n) = Ok tt)
  /\ (is_type (param_type validator) TStr = true ->
      check_value rp validator (VStr EmptyString) = Ok tt)
  /\ (is_type (param_type validator) TStr = true ->
      check_value rp validator (VUnicode []) = Ok tt).
Proof.
  split; [| split].
  - intros n Hty Hn. rewrite (check_value_number rp _ _ Hty), Hn. reflexivity.
  - intros Hty. rewrite (check_value_text rp _ _ Hty). reflexivity.
  - intros Hty. rewrite (check_value_unicode _ _ Hty). reflexivity.
Qed.

(** The exceptions of the [try] block of [check_value] carry a [str], so
    the [str(e)] of its [except] clause never raises. *)
Lemma check_bounds_message (validator : ParamValidator) (val : pyval) (e : exn) :
  check_bounds rp validator val = inr e ->
  exists m : string, e = Raise "Exception" (Bytes m).
Proof.
  unfold check_bounds. intros H.
  repeat match type of H with
         | (if ?c then _ else _) = _ =>
             destruct c; [injection H as <-; eexists; reflexivity |]
         end.
  discriminate H.
Qed.

(** X14.  The exceptions of [check_value] for a number say [Value], those for a
    text say [Length]; both are of the class [Exception]. *)
Theorem check_value_message (validator : ParamValidator) (e : exn) :
  (forall n, is_type (param_type validator) TInt
             || is_type (param_type validator) TFloat = true ->
             check_value rp validator (VNum n) = inr e ->
             exn_class e = "Exception" /\ exists m, exn_str e = "Value " ++ m)
  /\ (forall s, is_type (param_type validator) TStr = true ->
                check_value rp validator (VStr s) = inr e ->
                exn_class e = "Exception" /\ exists m, exn_str e = "Length " ++ m)
  /\ (forall u, is_type (param_type validator) TStr = true ->
                check_value rp validator (VUnicode u) = inr e ->
                exn_class e = "Exception" /\ exists m, exn_str e = "Length " ++ m).
Proof.
  split; [| split].
  - intros n Hty H. rewrite (check_value_number rp _ _ Hty) in H.
    destruct (num_truthy n); [| discriminate H].
    destruct (check_bounds rp validator (VNum n)) as [u | e'] eqn:Hb; [discriminate H |].
    apply check_bounds_message in Hb as [m ->]. cbn in H.
    injection H as <-. split; [reflexivity |]. eexists. reflexivity.
  - intros s Hty H. rewrite (check_value_text rp _ _ Hty) in H.
    destruct (negb (Z.of_nat (String.length s) =? 0)); [| discriminate H].
    destruct (check_bounds rp validator _) as [u | e'] eqn:Hb; [discriminate H |].
    apply check_bounds_message in Hb as [m ->]. cbn in H.
    injection H as <-. split; [reflexivity |]. eexists. reflexivity.
  - intros u Hty H. rewrite (check_value_unicode _ _ Hty) in H.
    destruct (negb (Z.of_nat (List.length u) =? 0)); [| discriminate H].
    destruct (check_bounds rp validator _) as [t | e'] eqn:Hb; [discriminate H |].
    apply check_bounds_message in Hb as [m ->]. cbn in H.
    injection H as <-. split; [reflexivity |]. eexists. reflexivity.
Qed.

(** X12.  An integer that is within every bound that is set, all of them integers,
    is accepted for an [int] parameter. *)
Theorem integer_within_bounds_accepted (validator : ParamValidator) (z : Z) :
  param_type validator = OType TInt ->
  (forall n, eq validator = Some n -> n = NInt z) ->
  (forall n, lt validator = Some n -> exists b, n = NInt b /\ z < b) ->
  (forall n, lte validator = Some n -> exists b, n = NInt b /\ z <= b) ->
  (forall n, gt validator = Some n -> exists b, n = NInt b /\ z > b) ->
  (forall n, gte validator = Some n -> exists b, n = NInt b /\ z >= b) ->
  check_value rp validator (VInt z) = Ok tt.
Proof.
  intros Hty He Hl Hle Hg Hge.
  rewrite check_value_number by (rewrite Hty; reflexivity).
  destruct (num_truthy (NInt z)); [| reflexivity].
  assert (Hcmp : forall b, compare_with_number (VInt z) (NInt b) = Some (z ?= b)).
  { intros b. apply num_compare_int. }
  unfold check_bounds.
  assert (H1 : bound_and (eq validator) val_ne (VInt z) = false).
  { destruct (eq validator) as [n |]; [| reflexivity]. rewrite (He n eq_refl). simpl.
    unfold val_ne. rewrite Hcmp, Z.compare_refl. apply andb_false_r. }
  assert (H2 : bound_and (lt validator) val_ge (VInt z) = false).
  { destruct (lt validator) as [n |]; [| reflexivity].
    destruct (Hl n eq_refl) as (b & -> & Hb). simpl.
    unfold val_ge. rewrite Hcmp. destruct (Z.compare_spec z b); first [lia | apply andb_false_r]. }
  assert (H3 : bound_and (lte validator) val_gt (VInt z) = false).
  { destruct (lte validator) as [n |]; [| reflexivity].
    destruct (Hle n eq_refl) as (b & -> & Hb). simpl.
    unfold val_gt. rewrite Hcmp. destruct (Z.compare_spec z b); first [lia | apply andb_false_r]. }
  assert (H4 : bound_and (gt validator) val_le (VInt z) = false).
  { destruct (gt validator) as [n |]; [| reflexivity].
    destruct (Hg n eq_refl) as (b & -> & Hb). simpl.
    unfold val_le. rewrite Hcmp. destruct (Z.compare_spec z b); first [lia | apply andb_false_r]. }
  assert (H5 : bound_and (gte validator) val_lt (VInt z) = false).
  { destruct (gte validator) as [n |]; [| reflexivity].
    destruct (Hge n eq_refl) as (b & -> & Hb). simpl.
    unfold val_lt. rewrite Hcmp. destruct (Z.compare_spec z b); first [lia | apply andb_false_r]. }
  rewrite H1, H2, H3, H4, H5. reflexivity.
Qed.

(** ** The dict of validators *)

Lemma get_validator_None key validators :
  get_validator key validators = None <-> key ∉ validators.*1.
Proof using Type.
  clear fl rp.
  induction validators as [| [k obj] rest IH]; simpl.
  - split; [intros _; apply not_elem_of_nil | reflexivity].
  - rewrite ?fmap_cons, not_elem_of_cons. simpl.
    destruct (String.eqb k key) eqn:Hk.
    + apply String.eqb_eq in Hk. subst k. split; [discriminate | intros [Habs _]; congruence].
    + apply String.eqb_neq in Hk. rewrite IH. split; [intros H; split; [congruence | exact H] | tauto].
Qed.

Lemma put_validator_keys key obj validators :
  (put_validator key obj validators).*1
  = match get_validator key validators with
    | Some _ => validators.*1
    | None => (validators.*1 ++ [key])%list
    end.
Proof.
  induction validators as [| [k old] rest IH]; [reflexivity |].
  cbn [put_validator get_validator].
  destruct (String.eqb k key) eqn:Hk; [reflexivity |].
  rewrite !fmap_cons, IH. destruct (get_validator key rest); reflexivity.
Qed.

(** One keyword adds the key of its parameter when it is new and changes
    no key. *)
Lemma configure_keys validators k v validators' :
  configure rp validators k v = Ok validators' ->
  validators'.*1
  = match get_validator (base_key k) validators with
    | Some _ => validators.*1
    | None => (validators.*1 ++ [base_key k])%list
    end.
Proof using rp.
  clear fl.
  unfold configure, base_key. intros H.
  set (key := hd EmptyString (Text.split "__" k)) in *.
  destruct (get_validator key validators) as [obj0 |] eqn:Hget.
  - destruct (if (List.length (Text.split "__" k) =? 1)%nat
              then set_type rp k v obj0
              else apply_modifier rp k (List.last (Text.split "__" k) EmptyString) v obj0)
      as [obj |]; [| discriminate H].
    simpl in H. injection H as <-. rewrite put_validator_keys, Hget. reflexivity.
  - destruct (if (List.length (Text.split "__" k) =? 1)%nat
              then set_type rp k v (ParamValidator_init key)
              else apply_modifier rp k (List.last (Text.split "__" k) EmptyString) v
                     (ParamValidator_init key))
      as [obj |]; [| discriminate H].
    simpl in H. injection H as <-.
    rewrite put_validator_keys, get_put_validator, put_validator_keys, Hget. reflexivity.
Qed.

Lemma configure_all_keys validators kwargs validators' :
  configure_all rp validators kwargs = Ok validators' ->
  NoDup validators.*1 ->
  NoDup validators'.*1
  /\ forall key, key ∈ validators'.*1
                 <-> key ∈ validators.*1 \/ exists kv, kv ∈ kwargs /\ base_key kv.1 = key.
Proof using rp.
  clear fl.
  revert validators. induction kwargs as [| [k v] rest IH]; intros validators H Hnd.
  - simpl in H. injection H as <-. split; [exact Hnd |].
    intros key. split; [auto |]. intros [Hk | (kv & Hin & _)]; [exact Hk |].
    apply elem_of_nil in Hin. destruct Hin.
  - simpl in H.
    destruct (configure rp validators k v) as [vs1 |] eqn:Hstep; [| discriminate H].
    simpl in H. pose proof (configure_keys _ _ _ _ Hstep) as Hkeys.
    assert (Hnd1 : NoDup vs1.*1).
    { rewrite Hkeys. destruct (get_validator (base_key k) validators) eqn:Hget; [exact Hnd |].
      apply NoDup_app. split; [exact Hnd |]. split; [| apply NoDup_singleton].
      intros x Hx Hx'. apply list_elem_of_singleton in Hx'. subst x.
      apply get_validator_None in Hget. contradiction. }
    destruct (IH _ H Hnd1) as [Hnd' Hmem]. split; [exact Hnd' |].
    intros key. rewrite Hmem, Hkeys. split.
    + intros [Hk | (kv & Hin & Hb)].
      * destruct (get_validator (base_key k) validators); [auto |].
        apply elem_of_app in Hk as [Hk | Hk]; [auto |].
        apply list_elem_of_singleton in Hk. right. exists (k, v).
        split; [apply elem_of_cons; auto | symmetry; exact Hk].
      * right. exists kv. split; [apply elem_of_cons; auto | exact Hb].
    + intros [Hk | (kv & Hin & Hb)].
      * left. destruct (get_validator (base_key k) validators); [exact Hk |].
        apply elem_of_app. auto.
      * apply elem_of_cons in Hin as [-> | Hin]; [| right; eauto].
        left. simpl in Hb. subst key.
        destruct (get_validator (base_key k) validators) eqn:Hget.
        -- destruct (decide (base_key k ∈ validators.*1)) as [Hyes | Hno]; [exact Hyes |].
           apply get_validator_None in Hno. congruence.
        -- apply elem_of_app. right. apply list_elem_of_singleton. reflexivity.
Qed.

(** X15.  [params] builds one validator for each parameter: the keys of the
    validators are the first parts of the keywords, each once. *)
Theorem params_keys (kwargs : list (string * pyobj))
    (validators : list (string * ParamValidator)) :
  params rp kwargs = Ok validators ->
  NoDup validators.*1
  /\ forall key, key ∈ validators.*1 <-> exists kv, kv ∈ kwargs /\ base_key kv.1 = key.
Proof using rp.
  clear fl. intros H.
  destruct (configure_all_keys [] kwargs validators H) as [Hnd Hmem].
  { apply NoDup_nil_2. }
  split; [exact Hnd |]. intros key. rewrite Hmem. split.
  - intros [Hk | Hk]; [| exact Hk]. apply elem_of_nil in Hk. destruct Hk.
  - intros Hk. right. exact Hk.
Qed.

(** ** One keyword at a time *)

(** A turn of the loop of [params]: the validator of the keyword's key is
    updated, or made and updated, and no other validator is touched. *)
Lemma configure_get validators k v validators' :
  configure rp validators k v = Ok validators' ->
  exists obj,
    keyword_update rp k v (validator_of (base_key k) validators) = Ok obj
    /\ get_validator (base_key k) validators' = Some obj
    /\ forall key, String.eqb (base_key k) key = false ->
                   get_validator key validators' = get_validator key validators.
Proof.
  unfold configure, keyword_update, validator_of, base_key. intros H.
  set (key0 := hd EmptyString (Text.split "__" k)) in *.
  destruct (get_validator key0 validators) as [obj0 |] eqn:Hget.
  - destruct (if (List.length (Text.split "__" k) =? 1)%nat
              then set_type rp k v obj0
              else apply_modifier rp k (List.last (Text.split "__" k) EmptyString) v obj0)
      as [obj |]; [| discriminate H].
    simpl in H. injection H as <-. exists obj.
    split; [reflexivity |]. split; [apply get_put_validator |].
    intros key Hkey. apply get_put_validator_other. exact Hkey.
  - destruct (if (List.length (Text.split "__" k) =? 1)%nat
              then set_type rp k v (ParamValidator_init key0)
              else apply_modifier rp k (List.last (Text.split "__" k) EmptyString) v
                     (ParamValidator_init key0))
      as [obj |]; [| discriminate H].
    simpl in H. injection H as <-. exists obj.
    split; [reflexivity |]. split; [apply get_put_validator |].
    intros key Hkey. rewrite !get_put_validator_other by exact Hkey. reflexivity.
Qed.

Lemma configure_ok validators k v obj :
  keyword_update rp k v (validator_of (base_key k) validators) = Ok obj ->
  exists validators', configure rp validators k v = Ok validators'.
Proof.
  unfold configure, keyword_update, validator_of, base_key. intros H.
  set (key0 := hd EmptyString (Text.split "__" k)) in *.
  destruct (get_validator key0 validators) as [obj0 |]; rewrite H; simpl; eauto.
Qed.

Lemma configure_raises validators k v e :
  keyword_update rp k v (validator_of (base_key k) validators) = inr e ->
  configure rp validators k v = inr e.
Proof.
  unfold configure, keyword_update, validator_of, base_key. intros H.
  set (key0 := hd EmptyString (Text.split "__" k)) in *.
  destruct (get_validator key0 validators) as [obj0 |]; rewrite H; reflexivity.
Qed.

Lemma validator_of_eq key validators validators' :
  get_validator key validators = get_validator key validators' ->
  validator_of key validators = validator_of key validators'.
Proof. unfold validator_of. intros ->. reflexivity. Qed.

Lemma configure_all_own_keywords arg_name kwargs validators1 validators2 validators1' :
  configure_all rp validators1 kwargs = Ok validators1' ->
  get_validator arg_name validators1 = get_validator arg_name validators2 ->
  exists validators2',
    configure_all rp validators2
      (List.filter (fun kv => String.eqb (base_key kv.1) arg_name) kwargs)
    = Ok validators2'
    /\ get_validator arg_name validators1' = get_validator arg_name validators2'.
Proof.
  revert validators1 validators2.
  induction kwargs as [| [k v] rest IH]; intros validators1 validators2 H Hsame.
  - simpl in *. injection H as <-. eauto.
  - simpl in H.
    destruct (configure rp validators1 k v) as [vs1 |] eqn:Hstep; [| discriminate H].
    simpl in H. destruct (configure_get _ _ _ _ Hstep) as (obj & Hupd & Hown & Hother).
    simpl. destruct (String.eqb (base_key k) arg_name) eqn:Hkey.
    + apply String.eqb_eq in Hkey. subst arg_name.
      rewrite (validator_of_eq _ _ _ Hsame) in Hupd.
      destruct (configure_ok _ _ _ _ Hupd) as [vs2 Hstep2].
      destruct (configure_get _ _ _ _ Hstep2) as (obj2 & Hupd2 & Hown2 & _).
      rewrite Hupd in Hupd2. injection Hupd2 as <-.
      cbn [configure_all]. rewrite Hstep2. simpl. apply (IH _ _ H). congruence.
    + apply (IH _ _ H). rewrite (Hother _ Hkey). exact Hsame.
Qed.

(** X16.  The validator of a parameter depends on the keywords of that
    parameter, in the order the loop visits them, and on nothing else: two
    visits of keyword arguments that agree on the keywords of [arg_name] and
    on their order build the same validator for it, whatever the other
    keywords are and wherever they fall.  (The order of the visit is the
    dict's; nothing is said of the order in which a dict gives its keys.) *)
Theorem validator_of_own_keywords (arg_name : string) (kwargs kwargs' : list (string * pyobj))
    (validators validators' : list (string * ParamValidator)) :
  List.filter (fun kv => String.eqb (base_key kv.1) arg_name) kwargs
  = List.filter (fun kv => String.eqb (base_key kv.1) arg_name) kwargs' ->
  params rp kwargs = Ok validators ->
  params rp kwargs' = Ok validators' ->
  get_validator arg_name validators = get_validator arg_name validators'.
Proof.
  intros Hown H H'.
  destruct (configure_all_own_keywords arg_name kwargs [] [] validators H eq_refl)
    as (own & Hrun & Hsame).
  destruct (configure_all_own_keywords arg_name kwargs' [] [] validators' H' eq_refl)
    as (own' & Hrun' & Hsame').
  rewrite Hown, Hrun' in Hrun. injection Hrun as <-.
  rewrite Hsame, Hsame'. reflexivity.
Qed.

Lemma apply_modifier_key k k' last_part v obj obj' :
  apply_modifier rp k last_part v obj = Ok obj' ->
  apply_modifier rp k' last_part v obj = Ok obj'.
Proof.
  unfold apply_modifier. intros H.
  destruct (String.eqb last_part "method"); [exact H |].
  destruct (String.eqb last_part "name"); [exact H |].
  destruct (str_in last_part BOOL_PARTS); [exact H |].
  destruct (str_in last_part NUM_PARTS); [exact H |].
  destruct (String.eqb last_part "default"); [exact H |].
  destruct (String.eqb last_part "field"); [exact H | discriminate H].
Qed.

(** X17.  Of a keyword with modifiers only the first and the last part count:
    two keywords that agree on them ([my_str__length__lt] and
    [my_str__lt]) do the same to the validators. *)
Theorem middle_parts_ignored (validators validators' : list (string * ParamValidator))
    (k k' : string) (v : pyobj) :
  base_key k = base_key k' ->
  List.last (Text.split "__" k) EmptyString = List.last (Text.split "__" k') EmptyString ->
  List.length (Text.split "__" k) <> 1%nat ->
  List.length (Text.split "__" k') <> 1%nat ->
  configure rp validators k v = Ok validators' ->
  configure rp validators k' v = Ok validators'.
Proof.
  unfold base_key, configure. intros Hbase Hlast Hk Hk' H.
  apply Nat.eqb_neq in Hk, Hk'. rewrite Hk in H. rewrite Hk'.
  rewrite <- Hbase, <- Hlast.
  set (key0 := hd EmptyString (Text.split "__" k)) in *.
  set (last_part := List.last (Text.split "__" k) EmptyString) in *.
  destruct (get_validator key0 validators) as [obj0 |].
  - destruct (apply_modifier rp k last_part v obj0) as [obj |] eqn:Hmod; [| discriminate H].
    rewrite (apply_modifier_key _ k' _ _ _ _ Hmod). exact H.
  - destruct (apply_modifier rp k last_part v (ParamValidator_init key0)) as [obj |] eqn:Hmod;
      [| discriminate H].
    rewrite (apply_modifier_key _ k' _ _ _ _ Hmod). exact H.
Qed.

Lemma configure_all_app validators pre post :
  configure_all rp validators (pre ++ post)
  = (do validators' <- configure_all rp validators pre;
     configure_all rp validators' post).
Proof.
  revert validators. induction pre as [| [k v] pre IH]; intros validators; [reflexivity |].
  simpl. destruct (configure rp validators k v) as [vs1 |]; [| reflexivity].
  simpl. apply IH.
Qed.

(** X18.  A keyword whose last part is not one the loop knows makes [params]
    raise, with the part and the keyword in the message, whatever the
    keywords after it are. *)
Theorem unknown_modifier_raises (pre post : list (string * pyobj)) (k : string) (v : pyobj)
    (validators : list (string * ParamValidator)) :
  params rp pre = Ok validators ->
  List.length (Text.split "__" k) <> 1%nat ->
  str_in (List.last (Text.split "__" k) EmptyString) known_parts = false ->
  params rp (pre ++ (k, v) :: post)
  = Throw "Exception"
      ("Invalid option: " ++ squote ++ "__" ++ List.last (Text.split "__" k) EmptyString
         ++ squote ++ " in param " ++ squote ++ k ++ squote).
Proof.
  unfold params. intros Hpre Hlen Hlast.
  rewrite configure_all_app, Hpre. simpl.
  rewrite (configure_raises validators k v
             (Raise "Exception"
                ("Invalid option: " ++ squote ++ "__"
                   ++ List.last (Text.split "__" k) EmptyString
                   ++ squote ++ " in param " ++ squote ++ k ++ squote)));
    [reflexivity |].
  unfold keyword_update. apply Nat.eqb_neq in Hlen. rewrite Hlen.
  unfold apply_modifier, str_in, BOOL_PARTS, NUM_PARTS.
  unfold str_in, known_parts in Hlast. simpl in Hlast.
  repeat (apply orb_false_elim in Hlast as [? Hlast]).
  simpl.
  repeat match goal with
         | Hx : String.eqb _ _ = false |- _ => rewrite Hx; clear Hx
         end.
  reflexivity.
Qed.

Lemma allow_methods_monotone obj methods obj' :
  allow_methods rp obj methods = Ok obj' ->
  (allow_GET obj = true -> allow_GET obj' = true)
  /\ (allow_POST obj = true -> allow_POST obj' = true).
Proof.
  revert obj. induction methods as [| method rest IH]; intros obj H; simpl in H.
  - injection H as <-. auto.
  - destruct (py_eq method (VStr "GET")).
    + destruct (IH _ H) as [HG HP]. split; intros Hx; [apply HG | apply HP]; auto.
    + destruct (py_eq method (VStr "POST")); [| destruct (raise_format_raises _ _ _ H)].
      destruct (IH _ H) as [HG HP]. split; intros Hx; [apply HG | apply HP]; auto.
Qed.

Lemma keyword_update_monotone k v obj obj' :
  keyword_update rp k v obj = Ok obj' ->
  (allow_GET obj = true -> allow_GET obj' = true)
  /\ (allow_POST obj = true -> allow_POST obj' = true).
Proof.
  unfold keyword_update. intros H.
  destruct (List.length (Text.split "__" k) =? 1)%nat.
  { destruct (set_type_methods rp _ _ _ _ H) as [-> ->]. auto. }
  destruct (String.eqb (List.last (Text.split "__" k) EmptyString) "method") eqn:Hlast.
  - unfold apply_modifier in H. rewrite Hlast in H.
    destruct (as_tuple_type v) as [methods |]; [exact (allow_methods_monotone _ _ _ H) |].
    destruct (obj_eq v (VStr "GET")); [injection H as <-; auto |].
    destruct (obj_eq v (VStr "POST")); [injection H as <-; auto |].
    destruct (raise_format_raises _ _ _ H).
  - destruct (apply_modifier_methods rp _ _ _ _ _ Hlast H) as [-> ->]. auto.
Qed.

(** X19.  A method that is allowed for a parameter stays allowed whatever
    keywords follow: no keyword takes a method away. *)
Theorem allowed_method_stays_allowed (arg_name : string) (kwargs : list (string * pyobj))
    (validators validators' : list (string * ParamValidator)) (obj : ParamValidator) :
  configure_all rp validators kwargs = Ok validators' ->
  get_validator arg_name validators = Some obj ->
  exists obj', get_validator arg_name validators' = Some obj'
               /\ (allow_GET obj = true -> allow_GET obj' = true)
               /\ (allow_POST obj = true -> allow_POST obj' = true).
Proof.
  revert validators obj. induction kwargs as [| [k v] rest IH]; intros validators obj H Hget.
  - simpl in H. injection H as <-. eauto.
  - simpl in H.
    destruct (configure rp validators k v) as [vs1 |] eqn:Hstep; [| discriminate H].
    simpl in H. destruct (configure_get _ _ _ _ Hstep) as (obj1 & Hupd & Hown & Hother).
    destruct (String.eqb (base_key k) arg_name) eqn:Hkey.
    + apply String.eqb_eq in Hkey. subst arg_name.
      unfold validator_of in Hupd. rewrite Hget in Hupd.
      destruct (keyword_update_monotone _ _ _ _ Hupd) as [HG1 HP1].
      destruct (IH _ _ H Hown) as (obj' & Hget' & HG & HP).
      exists obj'. split; [exact Hget' |]. split; auto.
    + apply (IH _ _ H). rewrite (Hother _ Hkey). exact Hget.
Qed.

(** ** The pieces of a text *)

Lemma split_go_cons sep skip s : exists h t, Text.split_go sep skip s = h :: t.
Proof.
  revert skip. induction s as [| c s IH]; intros skip; cbn [Text.split_go].
  { do 2 eexists. reflexivity. }
  destruct skip as [| n]; [| apply IH].
  destruct (String.prefix sep (String c s)).
  { do 2 eexists. reflexivity. }
  destruct (IH 0%nat) as (h & t & ->). do 2 eexists. reflexivity.
Qed.

Lemma join_cons_char sep c h t :
  Text.join sep (String c h :: t) = String c (Text.join sep (h :: t)).
Proof. destruct t; reflexivity. Qed.

Lemma join_cons_cons sep p h t :
  Text.join sep (p :: h :: t) = p ++ sep ++ Text.join sep (h :: t).
Proof. reflexivity. Qed.

(** Joining the pieces of a text with the one-character separator it was
    split on gives the text back. *)
Lemma join_split_char (c : ascii) (s : string) :
  Text.join (String c EmptyString) (Text.split (String c EmptyString) s) = s.
Proof.
  unfold Text.split. induction s as [| a s IH]; [reflexivity |].
  cbn [Text.split_go String.prefix String.length Nat.pred].
  destruct (split_go_cons (String c EmptyString) 0 s) as (h & t & Hsplit).
  rewrite Hsplit in *.
  destruct (ascii_dec c a) as [-> | Hne].
  - replace (String.prefix EmptyString s) with true by (destruct s; reflexivity).
    rewrite join_cons_cons, IH. reflexivity.
  - rewrite join_cons_char, IH. reflexivity.
Qed.

(** No piece of a text split on a character holds that character. *)
Lemma split_char_pieces (c : ascii) (s p : string) :
  p ∈ Text.split (String c EmptyString) s -> Text.mem_char c p = false.
Proof.
  unfold Text.split. revert p. induction s as [| a s IH]; intros p.
  { cbn. intros Hp. apply list_elem_of_singleton in Hp. subst p. reflexivity. }
  cbn [Text.split_go String.prefix String.length Nat.pred].
  destruct (split_go_cons (String c EmptyString) 0 s) as (h & t & Hsplit).
  rewrite Hsplit in *.
  destruct (ascii_dec c a) as [-> | Hne].
  - replace (String.prefix EmptyString s) with true by (destruct s; reflexivity).
    intros Hp. apply elem_of_cons in Hp as [-> | Hp]; [reflexivity | apply IH; exact Hp].
  - intros Hp. apply elem_of_cons in Hp as [-> | Hp].
    + cbn. apply Ascii.eqb_neq in Hne. rewrite Hne. simpl.
      apply IH. apply elem_of_cons. auto.
    + apply IH. apply elem_of_cons. auto.
Qed.

(** A [str] parameter turns each piece, a [str], into the [unicode] of its
    bytes. *)
Lemma check_type_text_pieces (validator : ParamValidator) (pieces : list string)
    (coerced : list pyval) :
  param_type validator = OType TStr ->
  map_result (check_type fl rp validator) (map VStr pieces) = Ok coerced ->
  coerced = map (fun p => VUnicode (codes p)) pieces.
Proof.
  intros Hty. revert coerced. induction pieces as [| p rest IH]; intros coerced H.
  { injection H as <-. reflexivity. }
  simpl in H. unfold check_type at 1 in H. rewrite Hty in H. simpl in H.
  unfold py_unicode, py_text, unicode_of_text, decode_ascii, ascii_decode in H.
  destruct (forallb is_ascii_byte (list_ascii_of_string p)); [| discriminate H].
  cbn in H.
  destruct (map_result (check_type fl rp validator) (map VStr rest)) as [cs |];
    [| discriminate H].
  injection H as <-. simpl. rewrite (IH cs eq_refl). reflexivity.
Qed.

(** X22.  For a [many] parameter of type [str] read from the query, where
    [str(param)] is [s]: the list the handler gets holds the pieces of [s]
    between its commas, in order, empty pieces too, each as a [unicode].
    The pieces are told by two facts: joined with commas they give [s]
    back, and no piece holds a comma. *)
Theorem many_text_round_trip (request : Request) (dpm arg_name : string)
    (validator : ParamValidator) (kwargs kwargs' : gmap string pyobj)
    (param : pyval) (s : string) :
  many validator = true ->
  param_type validator = OType TStr ->
  find_param request (param_name validator)
    (allowed_methods dpm validator).1 (allowed_methods dpm validator).2
    = Ok (param, Some "GET") ->
  py_truthy param = true ->
  py_str rp (OVal param) = Ok s ->
  (loop_body fl rp request dpm arg_name validator kwargs).2 = Ok (Next kwargs') ->
  exists pieces : list string,
    kwargs' = <[arg_name := OVal (VList (map (fun p => VUnicode (codes p)) pieces))]> kwargs
    /\ Text.join "," pieces = s
    /\ (forall p, p ∈ pieces -> Text.mem_char ","%char p = false).
Proof.
  intros Hmany Hty Hfind Htrue Hstr H.
  rewrite (loop_body_result _ _ _ _ _ _ _ Hfind) in H.
  rewrite (try_block_result fl rp) in H. rewrite Htrue, Hmany in H.
  unfold many_params in H. rewrite Hstr in H. unfold Ok, rbind in H. cbn [negb] in H.
  exists (Text.split "," s).
  split; [| split; [apply join_split_char | intros p; apply split_char_pieces]].
  destruct (map_result (check_type fl rp validator) (map VStr (Text.split "," s)))
    as [coerced | e] eqn:Htype.
  - apply (check_type_text_pieces _ _ _ Hty) in Htype. subst coerced.
    destruct (map_result (check_value rp validator) _) as [units | e].
    + injection H as <-. reflexivity.
    + destruct (error_body rp (param_name validator) e); discriminate H.
  - destruct (error_body rp (param_name validator) e); discriminate H.
Qed.

(** ** The store of the test suite *)

Lemma py_eq_int (a b : Z) : py_eq (VInt a) (VInt b) = (a =? b).
Proof.
  simpl. unfold num_eq. rewrite num_compare_int.
  destruct (Z.compare_spec a b) as [-> | Hlt | Hgt].
  - symmetry. apply Z.eqb_refl.
  - symmetry. apply Z.eqb_neq. lia.
  - symmetry. apply Z.eqb_neq. lia.
Qed.

Lemma MockUserManager_get_skip (objects rest : list MockUser) (n : Z) :
  (forall u, u ∈ objects -> user_id u <> n) ->
  MockUserManager_get rp (objects ++ rest) "id" (VInt n)
  = MockUserManager_get rp rest "id" (VInt n).
Proof.
  induction objects as [| u objects IH]; intros Hids; [reflexivity |].
  cbn [app MockUserManager_get]. cbn [String.eqb Ascii.eqb Bool.eqb orb py_int]. unfold rbind, Ok.
  rewrite py_eq_int.
  assert (Hu : (user_id u =? n) = false).
  { apply Z.eqb_neq. apply Hids. apply elem_of_cons. auto. }
  rewrite Hu. apply IH. intros w Hw. apply Hids. apply elem_of_cons. auto.
Qed.

Lemma MockUserManager_get_found (objects rest : list MockUser) (n : Z) (r : pyval) :
  MockUserManager_get rp objects "id" (VInt n) = Ok r ->
  MockUserManager_get rp (objects ++ rest) "id" (VInt n) = Ok r.
Proof.
  induction objects as [| u objects IH]; intros H.
  - discriminate H.
  - revert H. cbn [app MockUserManager_get].
    cbn [String.eqb Ascii.eqb Bool.eqb orb py_int]. unfold rbind, Ok.
    destruct (py_eq (VInt (user_id u)) (VInt n)); [auto | exact IH].
Qed.

(** X21.  In a store whose ids are all below the next id, [create] gives the new
    record the next id, a lookup by that id finds it, the lookups by id that
    found a record before find the same record, and the ids stay below the
    next id. *)
Theorem create_then_get (name email : pyval) (store : MockStore) :
  (forall u, u ∈ store_objects store -> user_id u < store_next_id store) ->
  user_id (MockUserManager_create name email store).1 = store_next_id store
  /\ MockUserManager_get rp (store_objects (MockUserManager_create name email store).2)
       "id" (VInt (store_next_id store))
     = Ok (VObj "_MockUser" (store_next_id store))
  /\ (forall n r,
         MockUserManager_get rp (store_objects store) "id" (VInt n) = Ok r ->
         MockUserManager_get rp (store_objects (MockUserManager_create name email store).2)
           "id" (VInt n) = Ok r)
  /\ (forall u, u ∈ store_objects (MockUserManager_create name email store).2 ->
                user_id u < store_next_id (MockUserManager_create name email store).2).
Proof.
  intros Hinv. split; [reflexivity |]. split; [| split].
  - cbn [MockUserManager_create snd store_objects].
    rewrite MockUserManager_get_skip.
    + cbn [MockUserManager_get]. cbn [String.eqb Ascii.eqb Bool.eqb orb py_int]. unfold rbind, Ok.
      rewrite py_eq_int. cbn [user_id]. rewrite Z.eqb_refl. reflexivity.
    + intros u Hu. specialize (Hinv u Hu). lia.
  - intros n r H. cbn [MockUserManager_create snd store_objects].
    apply MockUserManager_get_found. exact H.
  - intros u Hu. cbn [MockUserManager_create snd store_objects store_next_id] in *.
    apply elem_of_app in Hu as [Hu | Hu].
    + specialize (Hinv u Hu). lia.
    + apply list_elem_of_singleton in Hu. subst u. cbn [user_id]. lia.
Qed.

End Further.

(** * The further properties at inputs of the test suite *)


Lemma other_kwargs_reach_handler_witness :
  exists kwargs' : gmap string pyobj,
    <["my_int" := OVal (VInt 11)]> (<["page" := OVal (VInt 2)]> ∅) = kwargs'
    /\ forall k, k ∉ [("my_int", gt_validator)].*1 ->
                 kwargs' !! k = (<["page" := OVal (VInt 2)]> ∅ : gmap string pyobj) !! k.
Proof.
  exact (other_kwargs_reach_handler sample_float_of_text sample_repr
           [("my_int", gt_validator)] (fun _ _ kwargs => kwargs)
           (IsRequest (get_request [("my_int", VStr "11")])) []
           (<["page" := OVal (VInt 2)]> ∅)
           [EvParam "my_int"; EvCheckType "my_int" (VStr "11");
            EvCheckValue "my_int" (VInt 11); EvHandler]
           (<["my_int" := OVal (VInt 11)]> (<["page" := OVal (VInt 2)]> ∅)) eq_refl).
Defined.

Lemma param_type_names_source_witness :
  (Some "POST" = Some "POST" /\ true = true
   /\ dict_get (DATA (post_request [] [("my_int", VInt 100)])) (OVal (VStr "my_int"))
      = Ok (VInt 100))
  \/ (Some "POST" = Some "GET" /\ false = true
      /\ dict_get (GET (post_request [] [("my_int", VInt 100)])) (OVal (VStr "my_int"))
         = Ok (VInt 100)).
Proof.
  exact (param_type_names_source (post_request [] [("my_int", VInt 100)])
           (OVal (VStr "my_int")) false true (VInt 100) (Some "POST") eq_refl eq_refl).
Defined.


Lemma present_invalid_is_rejected_witness :
  loop_body sample_float_of_text sample_repr (get_request [("my_int", VStr "not an int")])
    "GET" "my_int" (set_optional true int_validator) ∅
  = ([EvParam "my_int"; EvCheckType "my_int" (VStr "not an int")],
     Ok (Return
           (Bytes ("Invalid param " ++ dquote ++ "my_int" ++ dquote
                     ++ ": invalid literal for int() with base 10: 'not an int'"))
           HTTP_400_BAD_REQUEST)).
Proof.
  exact (present_invalid_is_rejected sample_float_of_text sample_repr
           (get_request [("my_int", VStr "not an int")]) "GET" "my_int"
           (set_optional true int_validator) ∅ (VStr "not an int") (Some "GET")
           (literal_refused "not an int") "my_int"
           "invalid literal for int() with base 10: 'not an int'"
           eq_refl eq_refl eq_refl eq_refl eq_refl eq_refl).
Defined.

Lemma type_errors_come_first_witness :
  (loop_body sample_float_of_text sample_repr (get_request [("user_ids", VStr "200,abc")])
     "GET" "user_ids" many_lt_validator ∅).2
  = Ok (Return
          (Bytes ("Invalid param " ++ dquote ++ "user_ids" ++ dquote
                    ++ ": invalid literal for int() with base 10: 'abc'"))
          HTTP_400_BAD_REQUEST).
Proof.
  exact (type_errors_come_first sample_float_of_text sample_repr
           (get_request [("user_ids", VStr "200,abc")]) "GET" "user_ids"
           many_lt_validator ∅ (VStr "200,abc") (Some "GET") [VStr "200"; VStr "abc"]
           (literal_refused "abc") "user_ids"
           "invalid literal for int() with base 10: 'abc'"
           eq_refl eq_refl eq_refl eq_refl eq_refl eq_refl eq_refl).
Defined.

Lemma check_type_result_type_witness : exists z, VInt 12 = VInt z.
Proof.
  exact (proj1 (check_type_result_type sample_float_of_text sample_repr int_validator
                  (VStr "12") (VInt 12) eq_refl) eq_refl).
Defined.

Lemma enumeration_member_witness :
  VStr "red" = VStr "red"
  /\ exists item, item ∈ [VStr "red"; VStr "green"] /\ py_eq (VStr "red") item = true.
Proof.
  exact (enumeration_member sample_float_of_text sample_repr color_validator
           [VStr "red"; VStr "green"] (VStr "red") (VStr "red") eq_refl eq_refl).
Defined.

Lemma accepted_integer_within_bounds_witness : 11 > 10.
Proof.
  apply (proj1 (proj2 (proj2 (proj2
           (accepted_integer_within_bounds sample_repr gt_validator 11
              eq_refl ltac:(discriminate) eq_refl)))) 10).
  - reflexivity.
  - discriminate.
Defined.

Lemma integer_within_bounds_accepted_witness :
  check_value sample_repr gt_validator (VInt 11) = Ok tt.
Proof.
  apply (integer_within_bounds_accepted sample_repr gt_validator 11).
  - reflexivity.
  - intros n H. discriminate H.
  - intros n H. discriminate H.
  - intros n H. discriminate H.
  - intros n H. injection H as <-. exists 10. split; [reflexivity | lia].
  - intros n H. discriminate H.
Defined.

Lemma params_keys_witness :
  NoDup [("my_int", gt_validator)].*1
  /\ forall key, key ∈ [("my_int", gt_validator)].*1
                 <-> exists kv, kv ∈ gt_config /\ base_key kv.1 = key.
Proof. exact (params_keys sample_repr gt_config [("my_int", gt_validator)] eq_refl). Defined.

Lemma validator_of_own_keywords_witness :
  get_validator "my_int" [("my_int", gt_validator); ("color", color_validator)]
  = get_validator "my_int" [("color", color_validator); ("my_int", gt_validator)].
Proof.
  exact (validator_of_own_keywords sample_repr "my_int"
           [("my_int", OType TInt); ("color", OColl CTuple [VStr "red"; VStr "green"]);
            ("my_int__gt", OVal (VInt 10))]
           [("color", OColl CTuple [VStr "red"; VStr "green"]); ("my_int", OType TInt);
            ("my_int__gt", OVal (VInt 10))]
           [("my_int", gt_validator); ("color", color_validator)]
           [("color", color_validator); ("my_int", gt_validator)]
           eq_refl eq_refl eq_refl).
Defined.

Lemma middle_parts_ignored_witness :
  configure sample_repr [("my_str", str_validator)] "my_str__lt" (OVal (VInt 5))
  = Ok [("my_str", set_lt (Some (NInt 5)) str_validator)].
Proof.
  apply (middle_parts_ignored sample_repr [("my_str", str_validator)]
           [("my_str", set_lt (Some (NInt 5)) str_validator)]
           "my_str__length__lt" "my_str__lt" (OVal (VInt 5)));
    try reflexivity; discriminate.
Defined.

Lemma unknown_modifier_raises_witness :
  params sample_repr
    ([("my_int", OType TInt)] ++ ("my_int__max", OVal (VInt 5)) :: [("my_str", OType TStr)])
  = Throw "Exception"
      ("Invalid option: " ++ squote ++ "__" ++ "max" ++ squote ++ " in param "
         ++ squote ++ "my_int__max" ++ squote).
Proof.
  apply (unknown_modifier_raises sample_repr [("my_int", OType TInt)]
           [("my_str", OType TStr)] "my_int__max" (OVal (VInt 5))
           [("my_int", int_validator)]);
    try reflexivity; discriminate.
Defined.

Lemma allowed_method_stays_allowed_witness :
  exists obj',
    get_validator "my_int"
      [("my_int", set_optional true (set_allow_POST true get_only_validator))] = Some obj'
    /\ (allow_GET get_only_validator = true -> allow_GET obj' = true)
    /\ (allow_POST get_only_validator = true -> allow_POST obj' = true).
Proof.
  exact (allowed_method_stays_allowed sample_repr "my_int"
           [("my_int__method", OVal (VStr "POST")); ("my_int__optional", OVal (VBool true))]
           [("my_int", get_only_validator)]
           [("my_int", set_optional true (set_allow_POST true get_only_validator))]
           get_only_validator eq_refl eq_refl).
Defined.

Lemma params_no_method_witness :
  allow_GET gt_validator = false /\ allow_POST gt_validator = false.
Proof.
  exact (params_no_method sample_repr "my_int" gt_config [("my_int", gt_validator)]
           gt_validator eq_refl eq_refl eq_refl).
Defined.

Lemma create_then_get_witness :
  MockUserManager_get sample_repr
    (store_objects (MockUserManager_create (VStr "Cam Saul") VNone MockStore_empty).2)
    "id" (VInt 1)
  = Ok (VObj "_MockUser" 1).
Proof.
  refine (proj1 (proj2 (create_then_get sample_repr (VStr "Cam Saul") VNone
                          MockStore_empty _))).
  intros u Hu. apply elem_of_nil in Hu. destruct Hu.
Defined.

Lemma many_text_round_trip_witness :
  exists pieces : list string,
    <["tags" := OVal (VList [VUnicode (codes "a"); VUnicode []; VUnicode (codes "b")])]>
      (∅ : gmap string pyobj)
    = <["tags" := OVal (VList (map (fun p => VUnicode (codes p)) pieces))]> ∅
    /\ Text.join "," pieces = "a,,b"
    /\ (forall p, p ∈ pieces -> Text.mem_char ","%char p = false).
Proof.
  exact (many_text_round_trip sample_float_of_text sample_repr
           (get_request [("tags", VUnicode (codes "a,,b"))]) "GET" "tags"
           many_str_validator ∅
           (<["tags" := OVal (VList [VUnicode (codes "a"); VUnicode [];
                                     VUnicode (codes "b")])]> ∅)
           (VUnicode (codes "a,,b")) "a,,b"
           eq_refl eq_refl eq_refl eq_refl eq_refl eq_refl).
Defined.

Lemma zero_passes_every_bound_witness :
  check_value sample_repr gt_validator (VInt 0) = Ok tt.
Proof.
  exact (proj1 (zero_passes_every_bound sample_repr gt_validator) (NInt 0) eq_refl eq_refl).
Defined.

Lemma check_value_message_witness :
  exn_class (Raise "Exception" "Value must be greater than 10!") = "Exception"
  /\ exists m, exn_str (Raise "Exception" "Value must be greater than 10!") = "Value " ++ m.
Proof.
  exact (proj1 (check_value_message sample_repr gt_validator
                  (Raise "Exception" "Value must be greater than 10!"))
           (NInt 5) eq_refl eq_refl).
Defined.
